(** * Stock movements of the inventory service

    A shallow embedding of the inventory core of the backend:
    - [internal/entities/inventory.go], [internal/entities/inventory_log.go]
    - [internal/model/request/inventory_log.go],
      [internal/model/response/inventory_log.go]
    - the inventory and inventory-log repositories
    - [inventoryService.RecordStockMovement] and [inventoryService.UpdateThreshold]
    - the ambient transaction manager of [pkg/db]
    - [InventoryHandler.RecordStockMovement]

    Go's [int] is the 64-bit two's-complement integer: values are carried in [Z]
    and every arithmetic operation wraps explicitly.  [uint] identifiers are
    carried in [N]; the code never computes with them. *)

From Stdlib Require Import ZArith NArith List String Ascii Bool Lia DecimalString.
From Stdlib Require Import Sorted Permutation.
Import ListNotations.

Local Open Scope Z_scope.
Local Open Scope string_scope.
Local Open Scope list_scope.

(* ================================================================== *)
(** ** Go integers *)

Module GoInt.

Definition min_int : Z := - 2 ^ 63.
Definition max_int : Z := 2 ^ 63 - 1.

Definition in_range (z : Z) : Prop := min_int <= z <= max_int.

(** Two's-complement reduction to 64 bits. *)
Definition wrap (z : Z) : Z := (z + 2 ^ 63) mod 2 ^ 64 - 2 ^ 63.

(** [a + b] and [-a] on [int]. *)
Definition add (a b : Z) : Z := wrap (a + b).
Definition neg (a : Z) : Z := wrap (- a).

(** [fmt.Sprintf("%d", z)]. *)
Definition Sprintf_d (z : Z) : string := NilZero.string_of_int (Z.to_int z).

End GoInt.

(* ================================================================== *)
(** ** Errors ([errs.XError]) *)

(** Error kinds.  The [errs] package is a library; the service uses
    [INVALID_REQUEST], [DATABASE] and [MAPPING_ERROR].  [NOT_FOUND] is the kind
    the error taxonomy names for a missing snapshot. *)
Inductive ErrorType : Type :=
| INVALID_REQUEST
| NOT_FOUND
| DATABASE
| MAPPING_ERROR.

(** What gorm reports in [res.Error]. *)
Inductive GormError : Type :=
| ErrRecordNotFound
| ErrStorage.

(** [errs.NewXError(kind, message, cause)]. *)
Inductive XError : Type :=
| NewXError (kind : ErrorType) (message : string) (cause : Cause)
with Cause : Type :=
| CauseNil
| CauseGorm (e : GormError)
| CauseXError (x : XError)
| CauseBind.

Definition Kind (x : XError) : ErrorType :=
  match x with NewXError k _ _ => k end.

Definition Message (x : XError) : string :=
  match x with NewXError _ m _ => m end.

(** [sub] occurs in [s]. *)
Definition Contains (s sub : string) : Prop :=
  exists pre post, s = (pre ++ sub ++ post)%string.

(** [sub] occurs in [s], decided. *)
Fixpoint containsb (s sub : string) : bool :=
  String.prefix sub s
  || match s with
     | EmptyString => false
     | String _ s' => containsb s' sub
     end.

(* ================================================================== *)
(** ** Entities *)

(** A pointer to an entity, as the Go code holds one: nil; the address of the
    zero value of the entity, whose embedded [*Model] is nil ([Find] leaves it
    when no row matches); or the address of an entity scanned from a row,
    whose [*Model] is set. *)
Inductive Pointer (A : Type) : Type :=
| Nil
| ZeroValue
| Scanned (e : A).
Arguments Nil {A}.
Arguments ZeroValue {A}.
Arguments Scanned {A} e.

(** What a call comes to: it returns, or it panics (a nil pointer is
    dereferenced). *)
Inductive Outcome (A : Type) : Type :=
| Returns (a : A)
| Panics.
Arguments Returns {A} a.
Arguments Panics {A}.

Definition Time := Z.

(** The embedded [entities.Model], by the columns the migration gives every
    table (the actor columns are left out: nothing here reads them). *)
Record Model : Type := {
  ID : N;
  CreatedAt : Time;
  UpdatedAt : Time;
  IsActive : bool;
  ChannelId : N
}.

Definition InventoryLogChangeType := string.

Definition InventoryLogChangeTypeIN : InventoryLogChangeType := "IN".
Definition InventoryLogChangeTypeOUT : InventoryLogChangeType := "OUT".
Definition InventoryLogChangeTypeADJUST : InventoryLogChangeType := "ADJUST".

Module Inventory.
Record t : Type := {
  model : Model;
  ProductId : N;
  Quantity : Z;
  LowStockThreshold : Z
}.

(** [e.ProductId] through a pointer that is not nil: the zero value has
    product 0. *)
Definition ProductIdOf (e : Pointer t) : N :=
  match e with
  | Scanned i => ProductId i
  | ZeroValue => 0%N
  | Nil => 0%N
  end.

Definition IsLowStock (i : t) : bool := (Quantity i <=? LowStockThreshold i)%Z.
End Inventory.

Module InventoryLog.
Record t : Type := {
  model : Model;
  ProductId : N;
  ChangeType : InventoryLogChangeType;
  Quantity : Z;
  Reason : string;
  Notes : string;
  LoggedAt : Time
}.

(** The net change in quantity of one entry, by change type. *)
Definition CalculateNetChange (il : t) : Z :=
  if String.eqb (ChangeType il) InventoryLogChangeTypeIN then Quantity il
  else if String.eqb (ChangeType il) InventoryLogChangeTypeOUT then GoInt.neg (Quantity il)
  else if String.eqb (ChangeType il) InventoryLogChangeTypeADJUST then Quantity il
  else 0.
End InventoryLog.

(* ================================================================== *)
(** ** Request and response models *)

Record StockMovementRequest : Type := {
  ProductId : N;
  ChangeType : string;
  Quantity : Z;
  Reason : string;
  Notes : string;
  AdminOverride : bool
}.

Record StockMovementResponse : Type := {
  Success : bool;
  ResponseMessage : string;
  ResponseProductId : N;
  PreviousStock : Z;
  NewStock : Z;
  ChangeAmount : Z
}.

(** [requestModel.Inventory], as [UpdateThreshold] reads it. *)
Record InventoryRequest : Type := {
  ReqLowStockThreshold : Z
}.

(* ================================================================== *)
(** ** Storage *)

(** The two tables, rows in primary-key order. *)
Record DB : Type := {
  Inventories : list Inventory.t;
  InventoryLogs : list InventoryLog.t
}.

(** The statements the repositories send to the database. *)
Inductive StorageOp : Type :=
| OpBegin
| OpInventoryCreate
| OpInventoryGet
| OpInventoryGetByProductId
| OpInventoryUpdateQuantity
| OpInventoryUpdateThreshold
| OpInventoryLogCreate.

Definition StorageOp_eqb (a b : StorageOp) : bool :=
  match a, b with
  | OpBegin, OpBegin
  | OpInventoryCreate, OpInventoryCreate
  | OpInventoryGet, OpInventoryGet
  | OpInventoryGetByProductId, OpInventoryGetByProductId
  | OpInventoryUpdateQuantity, OpInventoryUpdateQuantity
  | OpInventoryUpdateThreshold, OpInventoryUpdateThreshold
  | OpInventoryLogCreate, OpInventoryLogCreate => true
  | _, _ => false
  end.

(** What one call cannot decide for itself: the clocks, and which statements
    the database refuses ([res.Error != nil] for a reason of its own). *)
Record Env : Type := {
  GetLocalTime : Time;
  Now : Time;
  fails : StorageOp -> bool
}.

(** The request context ([*context.Context]): the value stored under
    [constants.TRANSACTION_KEY], an open transaction with its working copy of
    the tables. *)
Definition Context := option DB.

(** The committed tables, the context of the running request, and the
    statements sent so far (oldest first). *)
Record World : Type := {
  committed : DB;
  ctx : Context;
  statements : list StorageOp
}.

(** The rows a query through the context sees. *)
Definition view (w : World) : DB :=
  match ctx w with
  | Some working => working
  | None => committed w
  end.

(* ================================================================== *)
(** ** The monad of repository and service code

    A call threads the world and either returns a value or an [*errs.XError]
    ([if err != nil { return nil, err }]). *)

Inductive Result (A : Type) : Type :=
| Ok (a : A)
| Err (e : XError).
Arguments Ok {A} a.
Arguments Err {A} e.

Definition M (A : Type) : Type := World -> Result A * World.

Definition ret {A} (a : A) : M A := fun w => (Ok a, w).
Definition fail {A} (e : XError) : M A := fun w => (Err e, w).

(** A computation that touches no storage. *)
Definition lift {A} (r : Result A) : M A := fun w => (r, w).

Definition bind {A B} (c : M A) (k : A -> M B) : M B :=
  fun w =>
    match c w with
    | (Ok a, w') => k a w'
    | (Err e, w') => (Err e, w')
    end.

(** [x, err := c; if err != nil { return nil, wrap(err) }]. *)
Definition orWrap {A} (c : M A) (wrapErr : XError -> XError) : M A :=
  fun w =>
    match c w with
    | (Ok a, w') => (Ok a, w')
    | (Err e, w') => (Err (wrapErr e), w')
    end.

Declare Scope go_scope.
Delimit Scope go_scope with go.
Notation "x <- c ;; k" := (bind c (fun x => k))
  (at level 61, c at next level, right associativity) : go_scope.
Notation "c ;;; k" := (bind c (fun _ => k))
  (at level 61, right associativity) : go_scope.
Local Open Scope go_scope.

(* ================================================================== *)
(** ** The transaction manager ([pkg/db]) *)

Module transactionManager.

(** [txn.db.Begin()], stored in the context. *)
Definition createTransaction (w : World) : DB * World :=
  let transaction := committed w in
  (transaction,
   {| committed := committed w;
      ctx := Some transaction;
      statements := statements w ++ [OpBegin] |}).

(** The current transaction of the context if there is one, else a new
    transaction, stored in the context. *)
Definition WithTransaction (w : World) : DB * World :=
  match ctx w with
  | None => createTransaction w
  | Some transaction => (transaction, w)
  end.

(** [transaction.Commit()]: the working copy becomes the committed tables.
    The transaction left in the context is finished: the database refuses
    what is sent through it afterwards, which the context kept here does not
    say; after the end only [committed] is read. *)
Definition Commit (w : World) : World :=
  let (transaction, w') := WithTransaction w in
  {| committed := transaction; ctx := ctx w'; statements := statements w' |}.

(** [transaction.Rollback()]: the working copy is dropped.  The transaction
    left in the context is finished, as after [Commit]; after the end only
    [committed] is read. *)
Definition Rollback (w : World) : World :=
  let (_, w') := WithTransaction w in
  {| committed := committed w'; ctx := Some (committed w');
     statements := statements w' |}.

End transactionManager.

(** Modelled from the spec: [GormDAL.WithDB(ctx)], whose code is not among
    the sources.  The source keeps an open transaction in the request context,
    and repository methods take the context for it: the handle repository
    code talks to is [WithTransaction(ctx)].  The statement about to be sent
    is recorded. *)
Definition WithDB (op : StorageOp) : M DB :=
  fun w =>
    let (transaction, w') := transactionManager.WithTransaction w in
    (Ok transaction,
     {| committed := committed w'; ctx := ctx w';
        statements := statements w' ++ [op] |}).

(** A write through the handle lands in the transaction's working copy. *)
Definition store (working : DB) : M unit :=
  fun w =>
    (Ok tt, {| committed := committed w; ctx := Some working;
               statements := statements w |}).

(* ================================================================== *)
(** ** gorm statements, as functions of the rows *)

Module gorm.

(** [res.Error] of a statement: the database's refusal, if any. *)
Definition Error (env : Env) (op : StorageOp) : option GormError :=
  if fails env op then Some ErrStorage else None.

(** [Where(cond).First(&x)]: the first matching row in primary-key order,
    [ErrRecordNotFound] when there is none. *)
Definition First {A} (env : Env) (op : StorageOp) (cond : A -> bool)
    (rows : list A) : GormError + A :=
  match Error env op with
  | Some e => inl e
  | None =>
      match find cond rows with
      | Some x => inr x
      | None => inl ErrRecordNotFound
      end
  end.

(** [Find(&x, id)] on [x], a zero value: the matching row scanned into [x],
    and [x] left as it was (no error) when there is none. *)
Definition Find {A} (env : Env) (op : StorageOp) (cond : A -> bool)
    (rows : list A) : GormError + Pointer A :=
  match Error env op with
  | Some e => inl e
  | None =>
      match find cond rows with
      | Some x => inr (Scanned x)
      | None => inr ZeroValue
      end
  end.

(** [Model(&T{}).Where(cond).Update(column, value)]: as [Updates] with one
    column; gorm stamps [updated_at] as well, which [set] is to do. *)
Definition Update {A} (env : Env) (op : StorageOp) (cond : A -> bool)
    (set : A -> A) (rows : list A) : GormError + list A :=
  match Error env op with
  | Some e => inl e
  | None => inr (map (fun r => if cond r then set r else r) rows)
  end.

(** [Model(&T{}).Where(cond).Updates(...)]: every matching row is rewritten;
    no matching row is no error. *)
Definition Updates {A} (env : Env) (op : StorageOp) (cond : A -> bool)
    (set : A -> A) (rows : list A) : GormError + list A :=
  match Error env op with
  | Some e => inl e
  | None => inr (map (fun r => if cond r then set r else r) rows)
  end.

(** [Create(&x)]: the row is appended under the next primary key. *)
Definition Create {A} (env : Env) (op : StorageOp) (withID : N -> A -> A)
    (x : A) (rows : list A) : GormError + list A :=
  match Error env op with
  | Some e => inl e
  | None => inr (rows ++ [withID (N.of_nat (S (List.length rows))) x])
  end.

End gorm.

Definition Model_withID (id : N) (m : Model) : Model :=
  {| ID := id; CreatedAt := CreatedAt m; UpdatedAt := UpdatedAt m;
     IsActive := IsActive m; ChannelId := ChannelId m |}.

Definition Model_withUpdatedAt (t : Time) (m : Model) : Model :=
  {| ID := ID m; CreatedAt := CreatedAt m; UpdatedAt := t;
     IsActive := IsActive m; ChannelId := ChannelId m |}.

(* ================================================================== *)
(** ** The inventory repository *)

Module inventoryRepository.
Import Inventory.

Definition withID (id : N) (i : t) : t :=
  {| model := Model_withID id (model i); ProductId := ProductId i;
     Quantity := Quantity i; LowStockThreshold := LowStockThreshold i |}.

Definition setQuantity (newQuantity : Z) (updated_at : Time) (i : t) : t :=
  {| model := Model_withUpdatedAt updated_at (model i);
     ProductId := ProductId i;
     Quantity := newQuantity; LowStockThreshold := LowStockThreshold i |}.

(** The threshold, and the [updated_at] gorm stamps on an [Update]. *)
Definition setThreshold (threshold : Z) (updated_at : Time) (i : t) : t :=
  {| model := Model_withUpdatedAt updated_at (model i);
     ProductId := ProductId i;
     Quantity := Quantity i; LowStockThreshold := threshold |}.

Definition hasProduct (productId : N) (i : t) : bool :=
  (ProductId i =? productId)%N.

Definition hasID (id : N) (i : t) : bool := (ID (model i) =? id)%N.

(** [product_id] is [unique]: a second row for a product is refused. *)
Definition Create (env : Env) (inventory : t) : M unit :=
  tx <- WithDB OpInventoryCreate ;;
  if existsb (hasProduct (ProductId inventory)) (Inventories tx)
  then fail (NewXError DATABASE "Unable to create inventory"
               (CauseGorm ErrStorage))
  else
    match gorm.Create env OpInventoryCreate withID inventory (Inventories tx) with
    | inl e => fail (NewXError DATABASE "Unable to create inventory" (CauseGorm e))
    | inr rows =>
        store {| Inventories := rows; InventoryLogs := InventoryLogs tx |}
    end.

Definition Get (env : Env) (id : N) : M (Pointer t) :=
  tx <- WithDB OpInventoryGet ;;
  match gorm.Find env OpInventoryGet (hasID id) (Inventories tx) with
  | inl e => fail (NewXError DATABASE "Unable to find inventory" (CauseGorm e))
  | inr inventory => ret inventory
  end.

Definition GetByProductId (env : Env) (productId : N) : M t :=
  tx <- WithDB OpInventoryGetByProductId ;;
  match gorm.First env OpInventoryGetByProductId (hasProduct productId)
          (Inventories tx) with
  | inl e =>
      fail (NewXError DATABASE "Unable to find inventory for product" (CauseGorm e))
  | inr inventory => ret inventory
  end.

Definition UpdateQuantity (env : Env) (productId : N) (newQuantity : Z) : M unit :=
  tx <- WithDB OpInventoryUpdateQuantity ;;
  match gorm.Updates env OpInventoryUpdateQuantity (hasProduct productId)
          (setQuantity newQuantity (Now env)) (Inventories tx) with
  | inl e =>
      fail (NewXError DATABASE "Unable to update inventory quantity" (CauseGorm e))
  | inr rows =>
      store {| Inventories := rows; InventoryLogs := InventoryLogs tx |}
  end.

Definition UpdateThreshold (env : Env) (productId : N) (threshold : Z) : M unit :=
  tx <- WithDB OpInventoryUpdateThreshold ;;
  match gorm.Update env OpInventoryUpdateThreshold (hasProduct productId)
          (setThreshold threshold (Now env)) (Inventories tx) with
  | inl e =>
      fail (NewXError DATABASE "Unable to update low stock threshold" (CauseGorm e))
  | inr rows =>
      store {| Inventories := rows; InventoryLogs := InventoryLogs tx |}
  end.

End inventoryRepository.

(* ================================================================== *)
(** ** The inventory-log repository *)

Module inventoryLogRepository.
Import InventoryLog.

Definition withID (id : N) (l : t) : t :=
  {| model := Model_withID id (model l); ProductId := ProductId l;
     ChangeType := ChangeType l; Quantity := Quantity l;
     Reason := Reason l; Notes := Notes l; LoggedAt := LoggedAt l |}.

Definition Create (env : Env) (log : t) : M unit :=
  tx <- WithDB OpInventoryLogCreate ;;
  match gorm.Create env OpInventoryLogCreate withID log (InventoryLogs tx) with
  | inl e => fail (NewXError DATABASE "Unable to create inventory log" (CauseGorm e))
  | inr rows =>
      store {| Inventories := Inventories tx; InventoryLogs := rows |}
  end.

End inventoryLogRepository.

(* ================================================================== *)
(** ** The inventory service *)

Module inventoryService.

Definition Insufficient_stock (previousStock quantity : Z) : string :=
  ("Insufficient stock. Available: " ++ GoInt.Sprintf_d previousStock
     ++ ", Requested: " ++ GoInt.Sprintf_d quantity)%string.

(** The [switch changeType] of [RecordStockMovement]: the new stock and the
    net change, or the refusal of an OUT that would leave negative stock.
    [newStock] and [netChange] start at zero and no case is a default. *)
Definition calculate (changeType : InventoryLogChangeType)
    (request : StockMovementRequest) (previousStock : Z) : Result (Z * Z) :=
  if String.eqb changeType InventoryLogChangeTypeIN then
    let newStock := GoInt.add previousStock (Quantity request) in
    let netChange := Quantity request in
    Ok (newStock, netChange)
  else if String.eqb changeType InventoryLogChangeTypeOUT then
    let netChange := GoInt.neg (Quantity request) in
    let newStock := GoInt.add previousStock netChange in
    if (newStock <? 0)%Z && negb (AdminOverride request)
    then Err (NewXError INVALID_REQUEST
                (Insufficient_stock previousStock (Quantity request)) CauseNil)
    else Ok (newStock, netChange)
  else if String.eqb changeType InventoryLogChangeTypeADJUST then
    let netChange :=
      if (Quantity request >? 0)%Z then Quantity request
      else GoInt.neg (Quantity request) in
    let newStock := GoInt.add previousStock netChange in
    Ok (newStock, netChange)
  else Ok (0%Z, 0%Z).

(** The log entry [RecordStockMovement] builds. *)
Definition logEntry (env : Env) (changeType : InventoryLogChangeType)
    (request : StockMovementRequest) : InventoryLog.t :=
  {| InventoryLog.model :=
       {| ID := 0%N; CreatedAt := 0%Z; UpdatedAt := 0%Z;
          IsActive := true; ChannelId := 0%N |};
     InventoryLog.ProductId := ProductId request;
     InventoryLog.ChangeType := changeType;
     InventoryLog.Quantity := Quantity request;
     InventoryLog.Reason := Reason request;
     InventoryLog.Notes := Notes request;
     InventoryLog.LoggedAt := GetLocalTime env |}.

(** All stock movements (IN, OUT, ADJUST). *)
Definition RecordStockMovement (env : Env) (request : StockMovementRequest)
  : M StockMovementResponse :=
  if (Quantity request <=? 0)%Z then
    fail (NewXError INVALID_REQUEST "Quantity must be greater than 0" CauseNil)
  else
  let changeType : InventoryLogChangeType := ChangeType request in
  if negb (String.eqb changeType InventoryLogChangeTypeIN)
     && negb (String.eqb changeType InventoryLogChangeTypeOUT)
     && negb (String.eqb changeType InventoryLogChangeTypeADJUST)
  then
    fail (NewXError INVALID_REQUEST
            "Invalid change type. Must be IN, OUT, or ADJUST" CauseNil)
  else
  inventory <-
    orWrap (inventoryRepository.GetByProductId env (ProductId request))
      (fun err => NewXError INVALID_REQUEST "Product inventory not found"
                    (CauseXError err)) ;;
  let previousStock := Inventory.Quantity inventory in
  movement <- lift (calculate changeType request previousStock) ;;
  let (newStock, netChange) := (movement : Z * Z) in
  orWrap (inventoryLogRepository.Create env (logEntry env changeType request))
    (fun errr => NewXError DATABASE "Failed to create inventory log"
                   (CauseXError errr)) ;;;
  orWrap (inventoryRepository.UpdateQuantity env (ProductId request) newStock)
    (fun errr => NewXError DATABASE "Failed to update inventory quantity"
                   (CauseXError errr)) ;;;
  ret {| Success := true;
         ResponseMessage :=
           ("Stock " ++ ChangeType request ++ " recorded successfully")%string;
         ResponseProductId := ProductId request;
         PreviousStock := previousStock;
         NewStock := newStock;
         ChangeAmount := netChange |}.

(** The threshold of the inventory row [id]. *)
Definition UpdateThreshold (env : Env) (inventory : InventoryRequest) (id : N)
  : M unit :=
  currentInventory <- inventoryRepository.Get env id ;;
  inventoryRepository.UpdateThreshold env
    (Inventory.ProductIdOf currentInventory) (ReqLowStockThreshold inventory).

End inventoryService.

(* ================================================================== *)
(** ** The product service: the inventory row of a new product *)

Module productService.

(** What [SaveProduct] does once the product row [dbProductID] exists. *)
Definition SaveProduct_inventory (env : Env) (dbProductID : N)
    (lowStockThreshold : Z) : M unit :=
  inventoryRepository.Create env
    {| Inventory.model :=
         {| ID := 0%N; CreatedAt := 0%Z; UpdatedAt := 0%Z;
            IsActive := true; ChannelId := 0%N |};
       Inventory.ProductId := dbProductID;
       Inventory.Quantity := 0%Z;
       Inventory.LowStockThreshold := lowStockThreshold |}.

End productService.

(* ================================================================== *)
(** ** Reading the tables *)

(** The snapshot of a product: the row [GetByProductId] returns. *)
Definition snapshot (d : DB) (productId : N) : option Inventory.t :=
  find (inventoryRepository.hasProduct productId) (Inventories d).

(** The ledger of a product, oldest entry first. *)
Definition ledger (d : DB) (productId : N) : list InventoryLog.t :=
  filter (fun l => (InventoryLog.ProductId l =? productId)%N) (InventoryLogs d).

(** Replaying a ledger: the [int] sum of the net changes of its entries. *)
Definition SumNetChanges (entries : list InventoryLog.t) : Z :=
  fold_left (fun acc l => GoInt.add acc (InventoryLog.CalculateNetChange l))
    entries 0%Z.

(** The sum of the net changes as integers, without wrap-around. *)
Definition NetChangeTotal (entries : list InventoryLog.t) : Z :=
  fold_right (fun l total => InventoryLog.CalculateNetChange l + total) 0%Z entries.

(** No statement refused. *)
Definition healthy (env : Env) : Prop := forall op, fails env op = false.

Definition emptyDB : DB := {| Inventories := []; InventoryLogs := [] |}.

(** A request arriving: committed tables, a fresh context. *)
Definition fresh (d : DB) : World :=
  {| committed := d; ctx := None; statements := [] |}.

Definition noFaults (now : Time) : Env :=
  {| GetLocalTime := now; Now := now; fails := fun _ => false |}.

Definition failing (now : Time) (op : StorageOp) : Env :=
  {| GetLocalTime := now; Now := now; fails := StorageOp_eqb op |}.

(* ================================================================== *)
(** ** The HTTP handler of a stock movement *)

Inductive Body : Type :=
| DefaultSuccessResponse (data : StockMovementResponse)
| DefaultFailureResponse (x : XError).

(** What [FormatAndSend] is given: a body and an HTTP status. *)
Record Sent : Type := {
  body : Body;
  status : Z
}.

Definition StatusBadRequest : Z := 400.
Definition StatusInternalServerError : Z := 500.
Definition StatusCreated : Z := 201.

Section InventoryHandler.

(** [errs.MALFORMED_REQUEST], a message of the [errs] library. *)
Variable MALFORMED_REQUEST : string.

(** [ctx.Bind(&movement)] on a decoded body: a field tagged
    [binding:"required"] must not hold the zero value of its type. *)
Definition Bind (movement : StockMovementRequest) : option Cause :=
  if (ProductId movement =? 0)%N
     || String.eqb (ChangeType movement) ""
     || (Quantity movement =? 0)%Z
     || String.eqb (Reason movement) ""
  then Some CauseBind
  else None.

Definition Handler_RecordStockMovement (env : Env)
    (movement : StockMovementRequest) (w : World) : Sent * World :=
  match Bind movement with
  | Some err =>
      let x := NewXError INVALID_REQUEST MALFORMED_REQUEST err in
      ({| body := DefaultFailureResponse x; status := StatusBadRequest |}, w)
  | None =>
      match inventoryService.RecordStockMovement env movement w with
      | (Err errr, w') =>
          ({| body := DefaultFailureResponse errr;
              status := StatusInternalServerError |}, w')
      | (Ok response, w') =>
          ({| body := DefaultSuccessResponse response;
              status := StatusCreated |}, w')
      end
  end.

(** Modelled from the spec: the storage transaction boundary of a request.
    The code that ends the transaction of the request context is not among
    the sources; the ledger append and the snapshot update are to be
    committed together when the movement succeeds and rolled back together
    when it fails.  A request starts on a fresh context. *)
Definition Serve_RecordStockMovement (env : Env)
    (movement : StockMovementRequest) (d : DB) : Sent * DB :=
  let (sent, w) := Handler_RecordStockMovement env movement (fresh d) in
  match body sent with
  | DefaultSuccessResponse _ => (sent, committed (transactionManager.Commit w))
  | DefaultFailureResponse _ => (sent, committed (transactionManager.Rollback w))
  end.

End InventoryHandler.

(* ================================================================== *)
(** ** What the claims speak of *)

(** The world after a statement [op] that writes nothing: the transaction is
    open, and begun first if the context had none. *)
Definition touch (op : StorageOp) (w : World) : World :=
  {| committed := committed w;
     ctx := Some (view w);
     statements :=
       match ctx w with
       | None => (statements w ++ [OpBegin]) ++ [op]
       | Some _ => statements w ++ [op]
       end |}.

(** The world after a statement [op] that leaves [working] in the
    transaction. *)
Definition write (op : StorageOp) (working : DB) (w : World) : World :=
  {| committed := committed (touch op w);
     ctx := Some working;
     statements := statements (touch op w) |}.

(** The tables reachable from [d0] by successful stock movements, each seen
    through the context it ran in. *)
Inductive Reachable (d0 : DB) : DB -> Prop :=
| Reachable_start : Reachable d0 d0
| Reachable_move (w w' : World) (env : Env) (request : StockMovementRequest)
    (response : StockMovementResponse) :
    Reachable d0 (view w) ->
    inventoryService.RecordStockMovement env request w = (Ok response, w') ->
    Reachable d0 (view w').

(** Two versions of a snapshot row that agree on everything but the quantity
    and the last-updated time. *)
Definition sameButQuantity (a b : Inventory.t) : Prop :=
  ID (Inventory.model a) = ID (Inventory.model b)
  /\ CreatedAt (Inventory.model a) = CreatedAt (Inventory.model b)
  /\ IsActive (Inventory.model a) = IsActive (Inventory.model b)
  /\ ChannelId (Inventory.model a) = ChannelId (Inventory.model b)
  /\ Inventory.ProductId a = Inventory.ProductId b
  /\ Inventory.LowStockThreshold a = Inventory.LowStockThreshold b.

(** Two versions of a snapshot row that agree on everything but the low-stock
    threshold and the last-updated time. *)
Definition sameButThreshold (a b : Inventory.t) : Prop :=
  ID (Inventory.model a) = ID (Inventory.model b)
  /\ CreatedAt (Inventory.model a) = CreatedAt (Inventory.model b)
  /\ IsActive (Inventory.model a) = IsActive (Inventory.model b)
  /\ ChannelId (Inventory.model a) = ChannelId (Inventory.model b)
  /\ Inventory.ProductId a = Inventory.ProductId b
  /\ Inventory.Quantity a = Inventory.Quantity b.

(** The rows of the snapshot table after a movement of [productId] to
    [newStock]. *)
Definition movedRows (env : Env) (productId : N) (newStock : Z)
    (rows : list Inventory.t) : list Inventory.t :=
  map (fun r => if inventoryRepository.hasProduct productId r
                then inventoryRepository.setQuantity newStock (Now env) r
                else r) rows.

(** The ledger row a movement appends to [logs]. *)
Definition appendedEntry (env : Env) (request : StockMovementRequest)
    (logs : list InventoryLog.t) : InventoryLog.t :=
  inventoryLogRepository.withID (N.of_nat (S (List.length logs)))
    (inventoryService.logEntry env (ChangeType request) request).

(** The tables after a movement of [request] to [newStock]: one ledger row
    more, and the snapshot of the product at the new quantity. *)
Definition moved (env : Env) (request : StockMovementRequest) (newStock : Z)
    (d : DB) : DB :=
  {| Inventories := movedRows env (ProductId request) newStock (Inventories d);
     InventoryLogs := InventoryLogs d ++ [appendedEntry env request (InventoryLogs d)] |}.

Definition validChangeType (changeType : string) : Prop :=
  changeType = InventoryLogChangeTypeIN
  \/ changeType = InventoryLogChangeTypeOUT
  \/ changeType = InventoryLogChangeTypeADJUST.

(** The outcomes of [RecordStockMovement], one line per exit. *)
Definition outcome (env : Env) (request : StockMovementRequest) (w : World)
  : Result StockMovementResponse * World :=
  if (Quantity request <=? 0)%Z then
    (Err (NewXError INVALID_REQUEST "Quantity must be greater than 0" CauseNil), w)
  else if negb (String.eqb (ChangeType request) InventoryLogChangeTypeIN)
          && negb (String.eqb (ChangeType request) InventoryLogChangeTypeOUT)
          && negb (String.eqb (ChangeType request) InventoryLogChangeTypeADJUST)
  then
    (Err (NewXError INVALID_REQUEST
            "Invalid change type. Must be IN, OUT, or ADJUST" CauseNil), w)
  else
    let w1 := touch OpInventoryGetByProductId w in
    match gorm.First env OpInventoryGetByProductId
            (inventoryRepository.hasProduct (ProductId request))
            (Inventories (view w)) with
    | inl e =>
        (Err (NewXError INVALID_REQUEST "Product inventory not found"
                (CauseXError
                   (NewXError DATABASE "Unable to find inventory for product"
                      (CauseGorm e)))), w1)
    | inr inventory =>
        match inventoryService.calculate (ChangeType request) request
                (Inventory.Quantity inventory) with
        | Err e => (Err e, w1)
        | Ok (newStock, netChange) =>
            if fails env OpInventoryLogCreate then
              (Err (NewXError DATABASE "Failed to create inventory log"
                      (CauseXError
                         (NewXError DATABASE "Unable to create inventory log"
                            (CauseGorm ErrStorage)))),
               touch OpInventoryLogCreate w1)
            else
              let logged :=
                {| Inventories := Inventories (view w);
                   InventoryLogs :=
                     InventoryLogs (view w)
                     ++ [appendedEntry env request (InventoryLogs (view w))] |} in
              let w2 := write OpInventoryLogCreate logged w1 in
              if fails env OpInventoryUpdateQuantity then
                (Err (NewXError DATABASE "Failed to update inventory quantity"
                        (CauseXError
                           (NewXError DATABASE "Unable to update inventory quantity"
                              (CauseGorm ErrStorage)))),
                 touch OpInventoryUpdateQuantity w2)
              else
                (Ok {| Success := true;
                       ResponseMessage :=
                         ("Stock " ++ ChangeType request
                            ++ " recorded successfully")%string;
                       ResponseProductId := ProductId request;
                       PreviousStock := Inventory.Quantity inventory;
                       NewStock := newStock;
                       ChangeAmount := netChange |},
                 write OpInventoryUpdateQuantity
                   (moved env request newStock (view w)) w2)
        end
    end.

(* ================================================================== *)
(** ** Scenarios *)

Definition snapshotRow (id productId : N) (quantity threshold : Z) : Inventory.t :=
  {| Inventory.model :=
       {| ID := id; CreatedAt := 0%Z; UpdatedAt := 0%Z;
          IsActive := true; ChannelId := 1%N |};
     Inventory.ProductId := productId;
     Inventory.Quantity := quantity;
     Inventory.LowStockThreshold := threshold |}.

(** Product 1 with the given stock and threshold 20, and an empty ledger. *)
Definition oneProduct (quantity : Z) : DB :=
  {| Inventories := [snapshotRow 1 1 quantity 20]; InventoryLogs := [] |}.

(** A movement of product 1. *)
Definition movement (changeType : string) (quantity : Z) (reason : string)
    (adminOverride : bool) : StockMovementRequest :=
  {| ProductId := 1%N; ChangeType := changeType; Quantity := quantity;
     Reason := reason; Notes := ""; AdminOverride := adminOverride |}.

(** Product 1 from creation: a purchase of 50, then, in the next request, a
    sale of 20. *)
Definition afterPurchase : World :=
  snd (inventoryService.RecordStockMovement (noFaults 1)
         (movement "IN" 50 "purchase" false) (fresh (oneProduct 0))).

Definition afterSale : World :=
  snd (inventoryService.RecordStockMovement (noFaults 2)
         (movement "OUT" 20 "sale" false) (fresh (view afterPurchase))).

(* ================================================================== *)
(** ** Products, categories and what [Preload] attaches *)

Module Category.
Record t : Type := {
  model : Model;
  Name : string
}.
End Category.

Module Product.
(** The two prices ([float64]) are left out: nothing here computes with
    them. *)
Record t : Type := {
  model : Model;
  Name : string;
  SKU : string;
  CategoryId : N;
  Description : string
}.
End Product.

(** The tables of products and categories, which the inventory code reads and
    never writes. *)
Record Catalog : Type := {
  Products : list Product.t;
  Categories : list Category.t
}.

(** Entities as a query hands them over: the row, and behind each relation
    pointer what [Preload] attached ([None] is the nil pointer). *)
Inductive LoadedCategory : Type :=
| LCategory (row : Category.t) (products : list LoadedProduct)
with LoadedProduct : Type :=
| LProduct (row : Product.t) (category : option LoadedCategory)
    (inventory : option LoadedInventory)
with LoadedInventory : Type :=
| LInventory (row : Inventory.t) (product : option LoadedProduct).

Record LoadedInventoryLog : Type := {
  logRow : InventoryLog.t;
  logProduct : option LoadedProduct
}.

Definition inventoryRow (e : LoadedInventory) : Inventory.t :=
  match e with LInventory row _ => row end.

Definition inventoryProduct (e : LoadedInventory) : option LoadedProduct :=
  match e with LInventory _ product => product end.

Definition productRow (e : LoadedProduct) : Product.t :=
  match e with LProduct row _ _ => row end.

Definition productCategory (e : LoadedProduct) : option LoadedCategory :=
  match e with LProduct _ category _ => category end.

Definition categoryRow (e : LoadedCategory) : Category.t :=
  match e with LCategory row _ => row end.

Module preload.

(** [Preload("Product.Category")]: the category of the product's
    [category_id], its own products not loaded. *)
Definition Category (catalog : Catalog) (p : Product.t) : option LoadedCategory :=
  match find (fun c => (ID (Category.model c) =? Product.CategoryId p)%N)
          (Categories catalog) with
  | Some c => Some (LCategory c [])
  | None => None
  end.

(** [Preload("Product")], with or without [Preload("Product.Category")]: the
    product of the row's [product_id]; its inventory is not loaded. *)
Definition Product (catalog : Catalog) (withCategory : bool) (productId : N)
  : option LoadedProduct :=
  match find (fun p => (ID (Product.model p) =? productId)%N)
          (Products catalog) with
  | Some p =>
      Some (LProduct p (if withCategory then Category catalog p else None) None)
  | None => None
  end.

Definition Inventory (catalog : Catalog) (withCategory : bool) (row : Inventory.t)
  : LoadedInventory :=
  LInventory row (Product catalog withCategory (Inventory.ProductId row)).

Definition InventoryLog (catalog : Catalog) (row : InventoryLog.t)
  : LoadedInventoryLog :=
  {| logRow := row;
     logProduct := Product catalog false (InventoryLog.ProductId row) |}.

End preload.

(* ================================================================== *)
(** ** Response models *)

Module responseModel.

(** [CreatedBy] and [UpdatedBy] are left out, as the actor columns are. *)
Record AuditFields : Type := {
  AuditCreatedAt : Time;
  AuditUpdatedAt : Time
}.

Record Category : Type := {
  CategoryID : N;
  CategoryIsActive : bool;
  CategoryName : string;
  ProductCount : Z;
  CategoryAudit : AuditFields
}.

Inductive Product : Type :=
| Build_Product (ID : N) (IsActive : bool) (Name SKU : string) (CategoryId : N)
    (Description : string) (Category : option Category)
    (Inventory : option Inventory) (CurrentStock : Z) (IsLowStock : bool)
    (CategoryName : string) (Audit : AuditFields)
with Inventory : Type :=
| Build_Inventory (ID : N) (IsActive : bool) (ProductId : N) (Quantity : Z)
    (LowStockThreshold : Z) (UpdatedAt : Time) (Product : option Product)
    (ProductName ProductSKU : string) (IsLowStock : bool) (Audit : AuditFields).

Definition Inventory_Quantity (r : Inventory) : Z :=
  match r with Build_Inventory _ _ _ q _ _ _ _ _ _ _ => q end.

Definition Inventory_ProductId (r : Inventory) : N :=
  match r with Build_Inventory _ _ p _ _ _ _ _ _ _ _ => p end.

Definition Inventory_LowStockThreshold (r : Inventory) : Z :=
  match r with Build_Inventory _ _ _ _ t _ _ _ _ _ _ => t end.

Definition Inventory_IsLowStock (r : Inventory) : bool :=
  match r with Build_Inventory _ _ _ _ _ _ _ _ _ l _ => l end.

Definition Inventory_Product (r : Inventory) : option Product :=
  match r with Build_Inventory _ _ _ _ _ _ p _ _ _ _ => p end.

Definition Product_CurrentStock (r : Product) : Z :=
  match r with Build_Product _ _ _ _ _ _ _ _ s _ _ _ => s end.

Definition Product_IsLowStock (r : Product) : bool :=
  match r with Build_Product _ _ _ _ _ _ _ _ _ l _ _ => l end.

Definition Product_Inventory (r : Product) : option Inventory :=
  match r with Build_Product _ _ _ _ _ _ _ i _ _ _ _ => i end.

Record LowStockItem : Type := {
  ItemProductId : N;
  ItemProductName : string;
  ItemProductSKU : string;
  CurrentStock : Z;
  ItemLowStockThreshold : Z;
  ItemCategoryName : string
}.

Record InventoryLog : Type := {
  LogID : N;
  LogIsActive : bool;
  LogProductId : N;
  LogChangeType : string;
  LogQuantity : Z;
  LogReason : string;
  LogNotes : string;
  LogLoggedAt : Time;
  LogAudit : AuditFields;
  LogProduct : option Product;
  LogProductName : string;
  LogProductSKU : string;
  NetChange : Z;
  StockAfter : Z;
  LoggedByName : string
}.

End responseModel.

(* ================================================================== *)
(** ** The response mapper *)

(** A Go [error]. *)
Definition error := string.

Module responseMapper.

Definition auditOf (m : Model) : responseModel.AuditFields :=
  {| responseModel.AuditCreatedAt := CreatedAt m;
     responseModel.AuditUpdatedAt := UpdatedAt m |}.

Definition Category (e : option LoadedCategory)
  : error + option responseModel.Category :=
  match e with
  | None => inr None
  | Some (LCategory row products) =>
      let productCount := Z.of_nat (List.length products) in
      inr (Some {| responseModel.CategoryID := ID (Category.model row);
                   responseModel.CategoryIsActive := IsActive (Category.model row);
                   responseModel.CategoryName := Category.Name row;
                   responseModel.ProductCount := productCount;
                   responseModel.CategoryAudit := auditOf (Category.model row) |})
  end.

(** [Product] and [Inventory] on a pointer that is not nil; each maps what
    the other's relation points to. *)
Fixpoint ProductOf (e : LoadedProduct) : error + responseModel.Product :=
  match e with
  | LProduct row category inventory =>
      match
        match category with
        | Some c =>
            match Category (Some c) with
            | inl err => inl err
            | inr cat => inr (cat, Category.Name (categoryRow c))
            end
        | None => inr (None, "")
        end
      with
      | inl err => inl err
      | inr (category', categoryName) =>
          match
            match inventory with
            | Some i =>
                match InventoryOf i with
                | inl err => inl err
                | inr inv =>
                    inr (Some inv, Inventory.Quantity (inventoryRow i),
                         Inventory.IsLowStock (inventoryRow i))
                end
            | None => inr (None, 0%Z, false)
            end
          with
          | inl err => inl err
          | inr (inventory', currentStock, isLowStock) =>
              inr (responseModel.Build_Product
                     (ID (Product.model row)) (IsActive (Product.model row))
                     (Product.Name row) (Product.SKU row)
                     (Product.CategoryId row) (Product.Description row)
                     category' inventory' currentStock isLowStock categoryName
                     (auditOf (Product.model row)))
          end
      end
  end
with InventoryOf (e : LoadedInventory) : error + responseModel.Inventory :=
  match e with
  | LInventory row product =>
      match
        match product with
        | Some p =>
            match ProductOf p with
            | inl err => inl err
            | inr prod =>
                inr (Some prod, Product.Name (productRow p),
                     Product.SKU (productRow p))
            end
        | None => inr (None, "", "")
        end
      with
      | inl err => inl err
      | inr (product', productName, productSKU) =>
          let isLowStock := Inventory.IsLowStock row in
          inr (responseModel.Build_Inventory
                 (ID (Inventory.model row)) (IsActive (Inventory.model row))
                 (Inventory.ProductId row) (Inventory.Quantity row)
                 (Inventory.LowStockThreshold row) 0%Z
                 product' productName productSKU isLowStock
                 (auditOf (Inventory.model row)))
      end
  end.

Definition Product (e : option LoadedProduct)
  : error + option responseModel.Product :=
  match e with
  | None => inr None
  | Some p => match ProductOf p with inl err => inl err | inr r => inr (Some r) end
  end.

Definition Inventory (e : option LoadedInventory)
  : error + option responseModel.Inventory :=
  match e with
  | None => inr None
  | Some i => match InventoryOf i with inl err => inl err | inr r => inr (Some r) end
  end.

(** [InventoryLog] on a pointer that is not nil. *)
Definition InventoryLogOf (l : LoadedInventoryLog)
  : error + responseModel.InventoryLog :=
  match
    match logProduct l with
    | Some p =>
        match Product (Some p) with
        | inl err => inl err
        | inr prod =>
            inr (prod, Product.Name (productRow p), Product.SKU (productRow p))
        end
    | None => inr (None, "", "")
    end
  with
  | inl err => inl err
  | inr (product', productName, productSKU) =>
      let netChange := InventoryLog.CalculateNetChange (logRow l) in
      inr {| responseModel.LogID := ID (InventoryLog.model (logRow l));
             responseModel.LogIsActive := IsActive (InventoryLog.model (logRow l));
             responseModel.LogProductId := InventoryLog.ProductId (logRow l);
             responseModel.LogChangeType := InventoryLog.ChangeType (logRow l);
             responseModel.LogQuantity := InventoryLog.Quantity (logRow l);
             responseModel.LogReason := InventoryLog.Reason (logRow l);
             responseModel.LogNotes := InventoryLog.Notes (logRow l);
             responseModel.LogLoggedAt := InventoryLog.LoggedAt (logRow l);
             responseModel.LogAudit := auditOf (InventoryLog.model (logRow l));
             responseModel.LogProduct := product';
             responseModel.LogProductName := productName;
             responseModel.LogProductSKU := productSKU;
             responseModel.NetChange := netChange;
             responseModel.StockAfter := 0%Z;
             responseModel.LoggedByName := "" |}
  end.

Definition InventoryLog (e : option LoadedInventoryLog)
  : error + option responseModel.InventoryLog :=
  match e with
  | None => inr None
  | Some l =>
      match InventoryLogOf l with inl err => inl err | inr r => inr (Some r) end
  end.

(** [for _, item := range items]: each item is mapped through its address,
    which is never nil, and appended; the first error ends the loop. *)
Fixpoint InventoryLogs (items : list LoadedInventoryLog)
  : error + list responseModel.InventoryLog :=
  match items with
  | [] => inr []
  | item :: rest =>
      match InventoryLogOf item with
      | inl err => inl err
      | inr mappedItem =>
          match InventoryLogs rest with
          | inl err => inl err
          | inr result => inr (mappedItem :: result)
          end
      end
  end.

End responseMapper.

(* ================================================================== *)
(** ** Queries *)

(** [Order("logged_at DESC")]: the rows by decreasing key.  Rows of equal key
    stay in table order; the database promises no order among them. *)
Fixpoint insertDesc {A} (key : A -> Z) (x : A) (sorted : list A) : list A :=
  match sorted with
  | [] => [x]
  | y :: rest =>
      if (key y <=? key x)%Z then x :: y :: rest
      else y :: insertDesc key x rest
  end.

Definition OrderDesc {A} (key : A -> Z) (rows : list A) : list A :=
  fold_right (insertDesc key) [] rows.

(** The handle of [WithDB(ctx)] for a query that [StorageOp] has no name for:
    the transaction of the context, begun if there is none. *)
Definition WithDB_query : M DB :=
  fun w =>
    let (transaction, w') := transactionManager.WithTransaction w in
    (Ok transaction, w').

Section Queries.

(** The rows [scopes.Channel()] and [scopes.IsActive()] let through for the
    request: the channel of the request context and the soft-delete flag.  The
    scopes package is not among the sources. *)
Variable scope : Model -> bool.

(** The tables of products and categories. *)
Variable catalog : Catalog.

(** Whether the database refuses the query ([res.Error != nil]). *)
Variable refused : bool.

Definition inventoryRepository_GetLowStockItems : M (list LoadedInventory) :=
  tx <- WithDB_query ;;
  if refused
  then fail (NewXError DATABASE "Unable to find low stock items"
               (CauseGorm ErrStorage))
  else ret (map (preload.Inventory catalog true)
              (filter (fun r => scope (Inventory.model r)
                                && (Inventory.Quantity r
                                    <=? Inventory.LowStockThreshold r)%Z)
                 (Inventories tx))).

Definition inventoryLogRepository_GetByProductId (productId : N)
  : M (list LoadedInventoryLog) :=
  tx <- WithDB_query ;;
  if refused
  then fail (NewXError DATABASE "Unable to find inventory logs for product"
               (CauseGorm ErrStorage))
  else ret (map (preload.InventoryLog catalog)
              (OrderDesc InventoryLog.LoggedAt
                 (filter (fun l => scope (InventoryLog.model l)
                                   && (InventoryLog.ProductId l =? productId)%N)
                    (InventoryLogs tx)))).

Definition inventoryLogRepository_GetByChangeType
    (changeType : InventoryLogChangeType) : M (list LoadedInventoryLog) :=
  tx <- WithDB_query ;;
  if refused
  then fail (NewXError DATABASE "Unable to find inventory logs by change type"
               (CauseGorm ErrStorage))
  else ret (map (preload.InventoryLog catalog)
              (OrderDesc InventoryLog.LoggedAt
                 (filter (fun l => scope (InventoryLog.model l)
                                   && String.eqb (InventoryLog.ChangeType l)
                                        changeType)
                    (InventoryLogs tx)))).

(** The body of the loop of [inventoryService.GetLowStockItems]: names are
    read through the relation pointers when they are not nil. *)
Definition LowStockItemOf (inv : LoadedInventory) : responseModel.LowStockItem :=
  let categoryName :=
    match inventoryProduct inv with
    | Some p =>
        match productCategory p with
        | Some c => Category.Name (categoryRow c)
        | None => ""
        end
    | None => ""
    end in
  let productName :=
    match inventoryProduct inv with
    | Some p => Product.Name (productRow p)
    | None => ""
    end in
  let productSKU :=
    match inventoryProduct inv with
    | Some p => Product.SKU (productRow p)
    | None => ""
    end in
  {| responseModel.ItemProductId := Inventory.ProductId (inventoryRow inv);
     responseModel.ItemProductName := productName;
     responseModel.ItemProductSKU := productSKU;
     responseModel.CurrentStock := Inventory.Quantity (inventoryRow inv);
     responseModel.ItemLowStockThreshold :=
       Inventory.LowStockThreshold (inventoryRow inv);
     responseModel.ItemCategoryName := categoryName |}.

(** [inventoryService.GetLowStockItems]. *)
Definition inventoryService_GetLowStockItems
  : M (list responseModel.LowStockItem) :=
  inventories <- inventoryRepository_GetLowStockItems ;;
  ret (map LowStockItemOf inventories).

(** [inventoryLogService.GetByProductId] and [GetByChangeType]. *)
Definition inventoryLogService_GetByProductId (productId : N)
  : M (list responseModel.InventoryLog) :=
  logs <- inventoryLogRepository_GetByProductId productId ;;
  match responseMapper.InventoryLogs logs with
  | inl mapErr =>
      fail (NewXError MAPPING_ERROR "Failed to map InventoryLog data" CauseNil)
  | inr mappedLogs => ret mappedLogs
  end.

Definition inventoryLogService_GetByChangeType (changeType : string)
  : M (list responseModel.InventoryLog) :=
  logs <- inventoryLogRepository_GetByChangeType changeType ;;
  match responseMapper.InventoryLogs logs with
  | inl mapErr =>
      fail (NewXError MAPPING_ERROR "Failed to map InventoryLog data" CauseNil)
  | inr mappedLogs => ret mappedLogs
  end.

End Queries.

Section Reads.

Variable env : Env.
Variable catalog : Catalog.

(** [inventoryRepository.GetByProductId] with its [Preload("Product")]. *)
Definition inventoryRepository_GetByProductId_loaded (productId : N)
  : M LoadedInventory :=
  inventory <- inventoryRepository.GetByProductId env productId ;;
  ret (preload.Inventory catalog false inventory).

(** [inventoryService.GetByProductId].  The cause of a MAPPING_ERROR, the
    mapper's error, is not carried. *)
Definition inventoryService_GetByProductId (productId : N)
  : M (option responseModel.Inventory) :=
  inventory <- inventoryRepository_GetByProductId_loaded productId ;;
  match responseMapper.Inventory (Some inventory) with
  | inl mapErr =>
      fail (NewXError MAPPING_ERROR "Failed to map Inventory data" CauseNil)
  | inr mappedInventory => ret mappedInventory
  end.

End Reads.

(** The replay of the net changes an inventory-log listing reports. *)
Definition SumReported (logs : list responseModel.InventoryLog) : Z :=
  fold_left (fun acc l => GoInt.add acc (responseModel.NetChange l)) logs 0%Z.

(** A reported log entry and the ledger row it reports. *)
Definition reports (r : responseModel.InventoryLog) (l : InventoryLog.t) : Prop :=
  responseModel.LogID r = ID (InventoryLog.model l)
  /\ responseModel.LogProductId r = InventoryLog.ProductId l
  /\ responseModel.LogChangeType r = InventoryLog.ChangeType l
  /\ responseModel.LogQuantity r = InventoryLog.Quantity l
  /\ responseModel.LogReason r = InventoryLog.Reason l
  /\ responseModel.LogLoggedAt r = InventoryLog.LoggedAt l
  /\ responseModel.NetChange r = InventoryLog.CalculateNetChange l.

(** The items of a listing of the rows [rows]. *)
Definition lowStockItems (scope : Model -> bool) (catalog : Catalog)
    (rows : list Inventory.t) : list responseModel.LowStockItem :=
  map LowStockItemOf
    (map (preload.Inventory catalog true)
       (filter (fun r => scope (Inventory.model r) && Inventory.IsLowStock r) rows)).

(** A listing names a product. *)
Definition listed (items : list responseModel.LowStockItem) (productId : N) : Prop :=
  exists item, In item items /\ responseModel.ItemProductId item = productId.

(** By decreasing time of logging. *)
Definition newestFirst (a b : InventoryLog.t) : Prop :=
  InventoryLog.LoggedAt b <= InventoryLog.LoggedAt a.

(** A ledger row as a movement writes it: a positive quantity, one of the
    three change types, active. *)
Definition wellFormedEntry (l : InventoryLog.t) : Prop :=
  0 < InventoryLog.Quantity l
  /\ validChangeType (InventoryLog.ChangeType l)
  /\ IsActive (InventoryLog.model l) = true.

(** A catalog with product 1, of category 1. *)
Definition oneProductCatalog : Catalog :=
  {| Products :=
       [{| Product.model :=
             {| ID := 1%N; CreatedAt := 0%Z; UpdatedAt := 0%Z;
                IsActive := true; ChannelId := 1%N |};
           Product.Name := "Thread"; Product.SKU := "THR-1";
           Product.CategoryId := 1%N; Product.Description := "" |}];
     Categories :=
       [{| Category.model :=
             {| ID := 1%N; CreatedAt := 0%Z; UpdatedAt := 0%Z;
                IsActive := true; ChannelId := 1%N |};
           Category.Name := "Notions" |}] |}.

(** The scope of a request that sees every active row. *)
Definition activeRows (m : Model) : bool := IsActive m.

(* ================================================================== *)
(** ** Facts about [int] *)

Module GoIntFacts.
Import GoInt.

Lemma wrap_in_range (z : Z) : in_range (wrap z).
Proof.
  unfold in_range, wrap, min_int, max_int.
  pose proof (Z.mod_pos_bound (z + 2 ^ 63) (2 ^ 64) ltac:(lia)). lia.
Qed.

Lemma wrap_id (z : Z) : in_range z -> wrap z = z.
Proof.
  unfold in_range, wrap, min_int, max_int. intros H.
  rewrite Z.mod_small; lia.
Qed.

Lemma wrap_wrap_add_l (a b : Z) : wrap (wrap a + b) = wrap (a + b).
Proof.
  unfold wrap.
  replace ((a + 2 ^ 63) mod 2 ^ 64 - 2 ^ 63 + b + 2 ^ 63)
    with ((a + 2 ^ 63) mod 2 ^ 64 + b) by lia.
  rewrite Zplus_mod_idemp_l. f_equal. f_equal. lia.
Qed.

Lemma wrap_wrap_add_r (a b : Z) : wrap (a + wrap b) = wrap (a + b).
Proof. rewrite Z.add_comm, wrap_wrap_add_l. f_equal. lia. Qed.

Lemma add_0_l (a : Z) : in_range a -> add 0 a = a.
Proof. intros H. unfold add. simpl. now apply wrap_id. Qed.

Lemma neg_pos (a : Z) : 0 < a <= max_int -> neg a = - a.
Proof.
  intros H. unfold neg. apply wrap_id.
  unfold in_range, min_int, max_int in *. lia.
Qed.

End GoIntFacts.

(* ================================================================== *)
(** ** Running repository code *)

Section Runs.

Variable env : Env.

Lemma view_touch op w : view (touch op w) = view w.
Proof. reflexivity. Qed.

Lemma committed_touch op w : committed (touch op w) = committed w.
Proof. reflexivity. Qed.

Lemma view_write op d w : view (write op d w) = d.
Proof. reflexivity. Qed.

Lemma committed_write op d w : committed (write op d w) = committed w.
Proof. reflexivity. Qed.

Lemma WithDB_run op w : WithDB op w = (Ok (view w), touch op w).
Proof.
  unfold WithDB, touch, view, transactionManager.WithTransaction,
    transactionManager.createTransaction.
  destruct w as [c [working|] sent]; reflexivity.
Qed.

Lemma GetByProductId_run productId w :
  inventoryRepository.GetByProductId env productId w =
  (match gorm.First env OpInventoryGetByProductId
           (inventoryRepository.hasProduct productId) (Inventories (view w)) with
   | inl e => Err (NewXError DATABASE "Unable to find inventory for product"
                     (CauseGorm e))
   | inr inventory => Ok inventory
   end, touch OpInventoryGetByProductId w).
Proof.
  unfold inventoryRepository.GetByProductId, bind. rewrite WithDB_run.
  destruct gorm.First; reflexivity.
Qed.

Lemma Get_run id w :
  inventoryRepository.Get env id w =
  (match gorm.Find env OpInventoryGet (inventoryRepository.hasID id)
           (Inventories (view w)) with
   | inl e => Err (NewXError DATABASE "Unable to find inventory" (CauseGorm e))
   | inr inventory => Ok inventory
   end, touch OpInventoryGet w).
Proof.
  unfold inventoryRepository.Get, bind. rewrite WithDB_run.
  destruct gorm.Find; reflexivity.
Qed.

Lemma LogCreate_run log w :
  inventoryLogRepository.Create env log w =
  if fails env OpInventoryLogCreate
  then (Err (NewXError DATABASE "Unable to create inventory log"
               (CauseGorm ErrStorage)), touch OpInventoryLogCreate w)
  else (Ok tt,
        write OpInventoryLogCreate
          {| Inventories := Inventories (view w);
             InventoryLogs :=
               InventoryLogs (view w)
               ++ [inventoryLogRepository.withID
                     (N.of_nat (S (List.length (InventoryLogs (view w))))) log] |}
          w).
Proof.
  unfold inventoryLogRepository.Create, bind. rewrite WithDB_run.
  unfold gorm.Create, gorm.Error.
  destruct (fails env OpInventoryLogCreate); reflexivity.
Qed.

Lemma UpdateQuantity_run productId newQuantity w :
  inventoryRepository.UpdateQuantity env productId newQuantity w =
  if fails env OpInventoryUpdateQuantity
  then (Err (NewXError DATABASE "Unable to update inventory quantity"
               (CauseGorm ErrStorage)), touch OpInventoryUpdateQuantity w)
  else (Ok tt,
        write OpInventoryUpdateQuantity
          {| Inventories := movedRows env productId newQuantity (Inventories (view w));
             InventoryLogs := InventoryLogs (view w) |}
          w).
Proof.
  unfold inventoryRepository.UpdateQuantity, bind. rewrite WithDB_run.
  unfold gorm.Updates, gorm.Error.
  destruct (fails env OpInventoryUpdateQuantity); reflexivity.
Qed.

Lemma UpdateThreshold_run productId threshold w :
  inventoryRepository.UpdateThreshold env productId threshold w =
  if fails env OpInventoryUpdateThreshold
  then (Err (NewXError DATABASE "Unable to update low stock threshold"
               (CauseGorm ErrStorage)), touch OpInventoryUpdateThreshold w)
  else (Ok tt,
        write OpInventoryUpdateThreshold
          {| Inventories :=
               map (fun r => if inventoryRepository.hasProduct productId r
                             then inventoryRepository.setThreshold threshold
                                    (Now env) r
                             else r) (Inventories (view w));
             InventoryLogs := InventoryLogs (view w) |}
          w).
Proof.
  unfold inventoryRepository.UpdateThreshold, bind. rewrite WithDB_run.
  unfold gorm.Update, gorm.Error.
  destruct (fails env OpInventoryUpdateThreshold); reflexivity.
Qed.

(** [First] by product is the snapshot, unless the statement is refused. *)
Lemma First_snapshot productId d :
  gorm.First env OpInventoryGetByProductId
    (inventoryRepository.hasProduct productId) (Inventories d) =
  if fails env OpInventoryGetByProductId then inl ErrStorage
  else match snapshot d productId with
       | Some inventory => inr inventory
       | None => inl ErrRecordNotFound
       end.
Proof.
  unfold gorm.First, gorm.Error, snapshot.
  destruct (fails env OpInventoryGetByProductId); reflexivity.
Qed.

Lemma RecordStockMovement_run request w :
  inventoryService.RecordStockMovement env request w = outcome env request w.
Proof.
  unfold inventoryService.RecordStockMovement, outcome.
  destruct (Quantity request <=? 0)%Z; [reflexivity|].
  destruct (negb _ && negb _ && negb _); [reflexivity|].
  unfold bind, orWrap, lift. rewrite GetByProductId_run.
  destruct gorm.First as [e|inventory]; [reflexivity|].
  destruct inventoryService.calculate as [[newStock netChange]|e]; [|reflexivity].
  rewrite LogCreate_run.
  destruct (fails env OpInventoryLogCreate); [reflexivity|].
  rewrite UpdateQuantity_run.
  destruct (fails env OpInventoryUpdateQuantity); reflexivity.
Qed.

End Runs.

(* ================================================================== *)
(** ** Strings *)

Lemma prefix_append (s post : string) : String.prefix s (s ++ post)%string = true.
Proof.
  induction s as [|a s IH]; simpl.
  - now destruct post.
  - destruct (ascii_dec a a); [exact IH | contradiction].
Qed.

Lemma Contains_containsb (s sub : string) : Contains s sub -> containsb s sub = true.
Proof.
  intros (pre & post & ->). induction pre as [|a pre IH]; simpl.
  - pose proof (prefix_append sub post) as H.
    destruct (sub ++ post)%string; unfold containsb; fold containsb;
      rewrite H; reflexivity.
  - rewrite IH. apply orb_true_r.
Qed.

Lemma append_empty_r (s : string) : (s ++ "")%string = s.
Proof. induction s as [|a s IH]; simpl; [reflexivity | now rewrite IH]. Qed.

Lemma validChangeType_check (changeType : string) :
  validChangeType changeType <->
  negb (String.eqb changeType InventoryLogChangeTypeIN)
  && negb (String.eqb changeType InventoryLogChangeTypeOUT)
  && negb (String.eqb changeType InventoryLogChangeTypeADJUST) = false.
Proof.
  unfold validChangeType.
  destruct (String.eqb_spec changeType InventoryLogChangeTypeIN) as [->|nIN];
    [split; [reflexivity | now left]|].
  destruct (String.eqb_spec changeType InventoryLogChangeTypeOUT) as [->|nOUT];
    [split; [reflexivity | now right; left]|].
  destruct (String.eqb_spec changeType InventoryLogChangeTypeADJUST) as [->|nADJ];
    [split; [reflexivity | now right; right]|].
  simpl. split; [intros [?|[?|?]]; contradiction | discriminate].
Qed.

(* ================================================================== *)
(** ** The exits of [RecordStockMovement] *)

(** The [switch] fails in one way only. *)
Lemma calculate_Err changeType request previousStock e :
  inventoryService.calculate changeType request previousStock = Err e ->
  e = NewXError INVALID_REQUEST
        (inventoryService.Insufficient_stock previousStock (Quantity request))
        CauseNil.
Proof.
  unfold inventoryService.calculate. cbv zeta.
  destruct (String.eqb changeType InventoryLogChangeTypeIN); [discriminate|].
  destruct (String.eqb changeType InventoryLogChangeTypeOUT).
  - destruct (_ && _); [|discriminate]. intros H. now injection H as <-.
  - destruct (String.eqb changeType InventoryLogChangeTypeADJUST); discriminate.
Qed.

Section Exits.

Variable env : Env.
Variable request : StockMovementRequest.
Variable w : World.

(** A successful movement read the snapshot, passed the [switch], appended
    one ledger row and moved the snapshot, all in the transaction of the
    context. *)
Lemma RecordStockMovement_Ok_inv response w' :
  inventoryService.RecordStockMovement env request w = (Ok response, w') ->
  exists inventory newStock netChange,
    0 < Quantity request
    /\ validChangeType (ChangeType request)
    /\ snapshot (view w) (ProductId request) = Some inventory
    /\ inventoryService.calculate (ChangeType request) request
         (Inventory.Quantity inventory) = Ok (newStock, netChange)
    /\ response =
         {| Success := true;
            ResponseMessage :=
              ("Stock " ++ ChangeType request ++ " recorded successfully")%string;
            ResponseProductId := ProductId request;
            PreviousStock := Inventory.Quantity inventory;
            NewStock := newStock;
            ChangeAmount := netChange |}
    /\ view w' = moved env request newStock (view w)
    /\ committed w' = committed w.
Proof.
  rewrite RecordStockMovement_run. unfold outcome.
  destruct (Quantity request <=? 0)%Z eqn:Eq; [discriminate|].
  destruct (negb _ && negb _ && negb _) eqn:Ect; [discriminate|].
  rewrite First_snapshot.
  destruct (fails env OpInventoryGetByProductId); [discriminate|].
  destruct (snapshot (view w) (ProductId request)) as [inventory|] eqn:Es;
    [|discriminate].
  destruct inventoryService.calculate as [[newStock netChange]|e] eqn:Ec;
    [|discriminate].
  destruct (fails env OpInventoryLogCreate); [discriminate|].
  destruct (fails env OpInventoryUpdateQuantity); [discriminate|].
  intros H. injection H as <- <-.
  exists inventory, newStock, netChange.
  repeat split; try reflexivity.
  - apply Z.leb_gt in Eq. exact Eq.
  - now apply validChangeType_check.
  - exact Ec.
Qed.

(** A failed movement committed nothing.  A failure that is not the
    database's happened before the writes: at most the snapshot was read, and
    the transaction is as it was found.  A failure of the database is the
    refusal of one of the two writes. *)
Lemma RecordStockMovement_Err_inv e w' :
  inventoryService.RecordStockMovement env request w = (Err e, w') ->
  committed w' = committed w
  /\ (Kind e = INVALID_REQUEST \/ Kind e = DATABASE)
  /\ (Kind e = INVALID_REQUEST ->
      view w' = view w
      /\ (w' = w \/ w' = touch OpInventoryGetByProductId w))
  /\ (Kind e = DATABASE ->
      fails env OpInventoryLogCreate = true
      \/ fails env OpInventoryUpdateQuantity = true).
Proof.
  rewrite RecordStockMovement_run. unfold outcome.
  destruct (Quantity request <=? 0)%Z;
    [intros H; injection H as <- <-; simpl; repeat split; auto; discriminate|].
  destruct (negb _ && negb _ && negb _);
    [intros H; injection H as <- <-; simpl; repeat split; auto; discriminate|].
  destruct gorm.First as [g|inventory];
    [intros H; injection H as <- <-; simpl; repeat split; auto; discriminate|].
  destruct inventoryService.calculate as [[newStock netChange]|e0] eqn:Ec.
  - destruct (fails env OpInventoryLogCreate);
      [intros H; injection H as <- <-; simpl; repeat split; auto; discriminate|].
    destruct (fails env OpInventoryUpdateQuantity);
      [intros H; injection H as <- <-; simpl; repeat split; auto; discriminate
      |discriminate].
  - intros H; injection H as <- <-. apply calculate_Err in Ec. subst e0.
    simpl; repeat split; auto; discriminate.
Qed.

End Exits.

(* ================================================================== *)
(** ** Validation *)

(** C8.  A movement whose quantity is zero or negative, and a movement whose
    change type is none of IN, OUT and ADJUST, fails with INVALID_REQUEST and
    the world is left exactly as it was: no transaction begun, no statement
    sent, no row read or written. *)
Theorem invalid_movement_rejected_before_storage
    (env : Env) (request : StockMovementRequest) (w : World) :
  Quantity request <= 0 \/ ~ validChangeType (ChangeType request) ->
  exists e,
    inventoryService.RecordStockMovement env request w = (Err e, w)
    /\ Kind e = INVALID_REQUEST.
Proof.
  intros H. rewrite RecordStockMovement_run. unfold outcome.
  destruct (Quantity request <=? 0)%Z eqn:Eq.
  - eexists. split; reflexivity.
  - apply Z.leb_gt in Eq. destruct H as [H|H]; [lia|].
    destruct (negb _ && negb _ && negb _) eqn:Ect.
    + eexists. split; reflexivity.
    + exfalso. apply H. now apply validChangeType_check.
Qed.

Lemma invalid_movement_rejected_before_storage_witness :
  (exists e,
     inventoryService.RecordStockMovement (noFaults 0)
       (movement "IN" 0 "count" false) (fresh (oneProduct 100))
     = (Err e, fresh (oneProduct 100))
     /\ Kind e = INVALID_REQUEST)
  /\ (exists e,
        inventoryService.RecordStockMovement (noFaults 0)
          (movement "BOGUS" 5 "count" false) (fresh (oneProduct 100))
        = (Err e, fresh (oneProduct 100))
        /\ Kind e = INVALID_REQUEST).
Proof.
  split.
  - apply (invalid_movement_rejected_before_storage (noFaults 0)
             (movement "IN" 0 "count" false) (fresh (oneProduct 100))).
    left. simpl. lia.
  - apply (invalid_movement_rejected_before_storage (noFaults 0)
             (movement "BOGUS" 5 "count" false) (fresh (oneProduct 100))).
    right. unfold validChangeType. simpl.
    intros [H|[H|H]]; discriminate H.
Defined.

(** Scenario E, evaluated. *)
Example scenario_E_magnitude :
  inventoryService.RecordStockMovement (noFaults 0)
    (movement "IN" 0 "count" false) (fresh (oneProduct 100))
  = (Err (NewXError INVALID_REQUEST "Quantity must be greater than 0" CauseNil),
     fresh (oneProduct 100)).
Proof. reflexivity. Qed.

Example scenario_E_change_type :
  inventoryService.RecordStockMovement (noFaults 0)
    (movement "BOGUS" 5 "count" false) (fresh (oneProduct 100))
  = (Err (NewXError INVALID_REQUEST
            "Invalid change type. Must be IN, OUT, or ADJUST" CauseNil),
     fresh (oneProduct 100)).
Proof. reflexivity. Qed.

(* ================================================================== *)
(** ** The missing snapshot *)

(** C6, as stated, fails: a movement of a product without a snapshot is not
    answered with a NOT_FOUND error. *)
Lemma missing_snapshot_is_not_NOT_FOUND :
  snapshot (view (fresh emptyDB)) (ProductId (movement "IN" 5 "purchase" false)) = None
  /\ ~ (exists e w',
          inventoryService.RecordStockMovement (noFaults 0)
            (movement "IN" 5 "purchase" false) (fresh emptyDB) = (Err e, w')
          /\ Kind e = NOT_FOUND).
Proof.
  split; [reflexivity|].
  intros (e & w' & H & HK). vm_compute in H.
  injection H as <- <-. discriminate HK.
Qed.

(** C6, amended.  A movement that passes the quantity and change-type checks
    and names a product without a snapshot fails with INVALID_REQUEST and the
    message "Product inventory not found"; nothing is written: the rows seen
    through the context and the committed rows are what they were. *)
Theorem missing_snapshot_rejected
    (env : Env) (request : StockMovementRequest) (w : World) :
  0 < Quantity request ->
  validChangeType (ChangeType request) ->
  snapshot (view w) (ProductId request) = None ->
  exists cause w',
    inventoryService.RecordStockMovement env request w
    = (Err (NewXError INVALID_REQUEST "Product inventory not found" cause), w')
    /\ view w' = view w
    /\ committed w' = committed w
    /\ statements w' = statements (touch OpInventoryGetByProductId w).
Proof.
  intros Hq Hct Hs. rewrite RecordStockMovement_run. unfold outcome.
  apply Z.leb_gt in Hq. rewrite Hq.
  apply validChangeType_check in Hct. rewrite Hct.
  rewrite First_snapshot, Hs.
  destruct (fails env OpInventoryGetByProductId);
    eexists; eexists; repeat split.
Qed.

Lemma missing_snapshot_rejected_witness :
  exists cause w',
    inventoryService.RecordStockMovement (noFaults 0)
      (movement "IN" 5 "purchase" false) (fresh emptyDB)
    = (Err (NewXError INVALID_REQUEST "Product inventory not found" cause), w')
    /\ view w' = view (fresh emptyDB)
    /\ committed w' = committed (fresh emptyDB)
    /\ statements w' = statements (touch OpInventoryGetByProductId (fresh emptyDB)).
Proof.
  apply (missing_snapshot_rejected (noFaults 0)
           (movement "IN" 5 "purchase" false) (fresh emptyDB)).
  - simpl. lia.
  - left. reflexivity.
  - reflexivity.
Defined.

(* ================================================================== *)
(** ** Insufficient stock *)

(** C3, as stated, fails at two movements of a product whose stock is -40 (the
    stock an overridden OUT of 50 leaves on a stock of 10), both OUT, without
    override and of a quantity above the stock.  The first has quantity 0: it
    is refused by the quantity check, whose message names neither the stock
    nor the quantity.  The second has the largest [int] as quantity: the new
    stock wraps around to a positive number, and the movement is applied. *)
Lemma insufficient_stock_counterexample :
  (snapshot (view (fresh (oneProduct (-40)))) 1%N
     = Some (snapshotRow 1 1 (-40) 20)
   /\ -40 < Quantity (movement "OUT" 0 "sale" false)
   /\ ~ (exists e w',
           inventoryService.RecordStockMovement (noFaults 0)
             (movement "OUT" 0 "sale" false) (fresh (oneProduct (-40)))
           = (Err e, w')
           /\ Contains (Message e) "Available: -40, Requested: 0"))
  /\ (-40 < Quantity (movement "OUT" 9223372036854775807 "sale" false)
      /\ ~ (exists e w',
              inventoryService.RecordStockMovement (noFaults 0)
                (movement "OUT" 9223372036854775807 "sale" false)
                (fresh (oneProduct (-40)))
              = (Err e, w'))).
Proof.
  split; [split; [reflexivity | split; [simpl; lia|]] | split; [simpl; lia|]].
  - intros (e & w' & H & HC). vm_compute in H. injection H as <- <-.
    apply Contains_containsb in HC. vm_compute in HC. discriminate HC.
  - intros (e & w' & H). vm_compute in H. discriminate H.
Qed.

(** What the second movement does instead. *)
Example overflowing_OUT_is_applied :
  exists w',
    inventoryService.RecordStockMovement (noFaults 0)
      (movement "OUT" 9223372036854775807 "sale" false) (fresh (oneProduct (-40)))
    = (Ok {| Success := true;
             ResponseMessage := "Stock OUT recorded successfully";
             ResponseProductId := 1%N;
             PreviousStock := -40;
             NewStock := 9223372036854775769;
             ChangeAmount := -9223372036854775807 |}, w')
    /\ option_map Inventory.Quantity (snapshot (view w') 1%N)
       = Some 9223372036854775769.
Proof. eexists. split; vm_compute; reflexivity. Qed.

(** C3, amended.  An OUT movement without override, of a positive quantity
    above the stock read from the snapshot and with [stock - quantity] not
    below the least [int], fails with INVALID_REQUEST; the message is
    "Insufficient stock. Available: <stock>, Requested: <quantity>", and
    neither the snapshot nor the ledger is modified. *)
Theorem insufficient_stock_rejected
    (env : Env) (request : StockMovementRequest) (w : World)
    (inventory : Inventory.t) :
  ChangeType request = InventoryLogChangeTypeOUT ->
  AdminOverride request = false ->
  fails env OpInventoryGetByProductId = false ->
  snapshot (view w) (ProductId request) = Some inventory ->
  0 < Quantity request ->
  Inventory.Quantity inventory < Quantity request ->
  GoInt.min_int <= Inventory.Quantity inventory - Quantity request ->
  exists e w',
    inventoryService.RecordStockMovement env request w = (Err e, w')
    /\ Kind e = INVALID_REQUEST
    /\ Message e =
         ("Insufficient stock. Available: "
            ++ GoInt.Sprintf_d (Inventory.Quantity inventory)
            ++ ", Requested: " ++ GoInt.Sprintf_d (Quantity request))%string
    /\ Contains (Message e)
         ("Available: " ++ GoInt.Sprintf_d (Inventory.Quantity inventory)
            ++ ", Requested: " ++ GoInt.Sprintf_d (Quantity request))%string
    /\ view w' = view w
    /\ committed w' = committed w.
Proof.
  intros Hct Hov Hread Hs Hq Hlt Hmin.
  rewrite RecordStockMovement_run. unfold outcome.
  pose proof Hq as Hq'. apply Z.leb_gt in Hq'. rewrite Hq'.
  assert (Hvalid : validChangeType (ChangeType request))
    by (right; left; exact Hct).
  apply validChangeType_check in Hvalid. rewrite Hvalid.
  rewrite First_snapshot, Hread, Hs.
  unfold inventoryService.calculate. rewrite Hct. simpl String.eqb.
  cbv zeta. rewrite Hov.
  assert (Hnew : GoInt.add (Inventory.Quantity inventory)
                   (GoInt.neg (Quantity request))
                 = Inventory.Quantity inventory - Quantity request).
  { unfold GoInt.add, GoInt.neg. rewrite GoIntFacts.wrap_wrap_add_r.
    apply GoIntFacts.wrap_id.
    unfold GoInt.in_range, GoInt.min_int, GoInt.max_int in *. lia. }
  rewrite Hnew.
  assert (Hneg : (Inventory.Quantity inventory - Quantity request <? 0)%Z = true)
    by (apply Z.ltb_lt; lia).
  rewrite Hneg. simpl andb. cbv iota.
  eexists. eexists. split; [reflexivity|].
  split; [reflexivity|]. split; [reflexivity|].
  split; [|split; reflexivity].
  exists "Insufficient stock. ", "". simpl.
  unfold inventoryService.Insufficient_stock. simpl.
  now rewrite append_empty_r.
Qed.

(** Scenario B. *)
Lemma insufficient_stock_rejected_witness :
  exists e w',
    inventoryService.RecordStockMovement (noFaults 0)
      (movement "OUT" 50 "sale" false) (fresh (oneProduct 10)) = (Err e, w')
    /\ Kind e = INVALID_REQUEST
    /\ Message e =
         ("Insufficient stock. Available: " ++ GoInt.Sprintf_d 10
            ++ ", Requested: " ++ GoInt.Sprintf_d 50)%string
    /\ Contains (Message e)
         ("Available: " ++ GoInt.Sprintf_d 10
            ++ ", Requested: " ++ GoInt.Sprintf_d 50)%string
    /\ view w' = view (fresh (oneProduct 10))
    /\ committed w' = committed (fresh (oneProduct 10)).
Proof.
  apply (insufficient_stock_rejected (noFaults 0)
           (movement "OUT" 50 "sale" false) (fresh (oneProduct 10))
           (snapshotRow 1 1 10 20)).
  - reflexivity.
  - reflexivity.
  - reflexivity.
  - reflexivity.
  - simpl. lia.
  - simpl. lia.
  - unfold GoInt.min_int. simpl. lia.
Defined.

Example scenario_B :
  fst (inventoryService.RecordStockMovement (noFaults 0)
         (movement "OUT" 50 "sale" false) (fresh (oneProduct 10)))
  = Err (NewXError INVALID_REQUEST
           "Insufficient stock. Available: 10, Requested: 50" CauseNil).
Proof. reflexivity. Qed.

(* ================================================================== *)
(** ** The result of a movement *)

Lemma calculate_sum (request : StockMovementRequest) (previousStock newStock netChange : Z) :
  validChangeType (ChangeType request) ->
  inventoryService.calculate (ChangeType request) request previousStock
  = Ok (newStock, netChange) ->
  newStock = GoInt.add previousStock netChange.
Proof.
  intros Hv. unfold inventoryService.calculate. cbv zeta.
  apply validChangeType_check in Hv.
  destruct (String.eqb (ChangeType request) InventoryLogChangeTypeIN);
    [intros H; injection H as <- <-; reflexivity|].
  destruct (String.eqb (ChangeType request) InventoryLogChangeTypeOUT).
  - clear Hv. destruct (_ && _); [discriminate|].
    intros H; injection H as <- <-; reflexivity.
  - destruct (String.eqb (ChangeType request) InventoryLogChangeTypeADJUST);
      [|discriminate Hv].
    intros H; injection H as <- <-; reflexivity.
Qed.

(** C5.  A successful movement answers with the quantity the snapshot held
    when it was read as [previousStock], with the net change as
    [changeAmount] (the quantity for IN, its negation for OUT) and with
    [previousStock + changeAmount], computed on [int], as [newStock]; and an
    OUT with [adminOverride] succeeds whatever the sign of the new stock. *)
Theorem movement_result :
  (forall env request w response w',
      inventoryService.RecordStockMovement env request w = (Ok response, w') ->
      exists inventory,
        snapshot (view w) (ProductId request) = Some inventory
        /\ PreviousStock response = Inventory.Quantity inventory
        /\ NewStock response
           = GoInt.add (PreviousStock response) (ChangeAmount response)
        /\ (GoInt.in_range (PreviousStock response + ChangeAmount response) ->
            NewStock response = PreviousStock response + ChangeAmount response)
        /\ (ChangeType request = InventoryLogChangeTypeIN ->
            ChangeAmount response = Quantity request)
        /\ (ChangeType request = InventoryLogChangeTypeOUT ->
            ChangeAmount response = GoInt.neg (Quantity request)
            /\ (Quantity request <= GoInt.max_int ->
                ChangeAmount response = - Quantity request)))
  /\ (forall env request w inventory,
         healthy env ->
         ChangeType request = InventoryLogChangeTypeOUT ->
         AdminOverride request = true ->
         0 < Quantity request ->
         snapshot (view w) (ProductId request) = Some inventory ->
         exists response w',
           inventoryService.RecordStockMovement env request w = (Ok response, w')
           /\ PreviousStock response = Inventory.Quantity inventory
           /\ NewStock response
              = GoInt.add (Inventory.Quantity inventory)
                  (GoInt.neg (Quantity request))).
Proof.
  split.
  - intros env request w response w' H.
    apply RecordStockMovement_Ok_inv in H.
    destruct H as (inventory & newStock & netChange & Hq & Hv & Hs & Hc & -> & _).
    exists inventory. simpl.
    pose proof (calculate_sum _ _ _ _ Hv Hc) as Hsum.
    repeat split; try assumption.
    + intros Hr. rewrite Hsum. now apply GoIntFacts.wrap_id.
    + intros Hct. unfold inventoryService.calculate in Hc.
      rewrite Hct in Hc. simpl in Hc. now injection Hc as _ <-.
    + unfold inventoryService.calculate in Hc.
      rewrite H in Hc. simpl in Hc.
      destruct (_ && _) in Hc; [discriminate|]. now injection Hc as _ <-.
    + intros Hmax. unfold inventoryService.calculate in Hc.
      rewrite H in Hc. simpl in Hc.
      destruct (_ && _) in Hc; [discriminate|]. injection Hc as _ <-.
      apply GoIntFacts.neg_pos. lia.
  - intros env request w inventory Hh Hct Hov Hq Hs.
    rewrite RecordStockMovement_run. unfold outcome.
    apply Z.leb_gt in Hq. rewrite Hq.
    assert (Hvalid : validChangeType (ChangeType request))
      by (right; left; exact Hct).
    apply validChangeType_check in Hvalid. rewrite Hvalid.
    rewrite First_snapshot, !Hh, Hs.
    unfold inventoryService.calculate. rewrite Hct. simpl String.eqb.
    cbv zeta. rewrite Hov, andb_false_r. cbv iota.
    eexists. eexists. split; [reflexivity|]. split; reflexivity.
Qed.

(** Scenarios A and C. *)
Lemma movement_result_witness :
  (exists inventory,
      snapshot (view (fresh (oneProduct 100))) 1%N = Some inventory
      /\ Inventory.Quantity inventory = 100)
  /\ (exists response w',
         inventoryService.RecordStockMovement (noFaults 0)
           (movement "OUT" 50 "sale" true) (fresh (oneProduct 10))
         = (Ok response, w')
         /\ PreviousStock response = 10
         /\ NewStock response = -40).
Proof.
  destruct movement_result as [result override_succeeds]. split.
  - destruct (result (noFaults 0) (movement "IN" 50 "purchase" false)
                (fresh (oneProduct 100)) _ _ eq_refl)
      as (inventory & Hs & Hp & _).
    exists inventory. split; [exact Hs|]. symmetry. exact Hp.
  - destruct (override_succeeds (noFaults 0) (movement "OUT" 50 "sale" true)
                (fresh (oneProduct 10)) (snapshotRow 1 1 10 20))
      as (response & w' & Hrun & Hp & Hn).
    + intros op. reflexivity.
    + reflexivity.
    + reflexivity.
    + simpl. lia.
    + reflexivity.
    + exists response, w'. split; [exact Hrun|]. split; [exact Hp|].
      rewrite Hn. reflexivity.
Defined.

Example scenario_A :
  fst (inventoryService.RecordStockMovement (noFaults 0)
         (movement "IN" 50 "purchase" false) (fresh (oneProduct 100)))
  = Ok {| Success := true;
          ResponseMessage := "Stock IN recorded successfully";
          ResponseProductId := 1%N;
          PreviousStock := 100; NewStock := 150; ChangeAmount := 50 |}.
Proof. reflexivity. Qed.

Example scenario_C :
  fst (inventoryService.RecordStockMovement (noFaults 0)
         (movement "OUT" 50 "sale" true) (fresh (oneProduct 10)))
  = Ok {| Success := true;
          ResponseMessage := "Stock OUT recorded successfully";
          ResponseProductId := 1%N;
          PreviousStock := 10; NewStock := -40; ChangeAmount := -50 |}.
Proof. reflexivity. Qed.

(* ================================================================== *)
(** ** ADJUST *)

(** C4.  An ADJUST of -5 on a stock of 100 is not applied as a removal of 5:
    the quantity check refuses it before the [switch] is reached, and stock
    and ledger stay as they were. *)
Theorem negative_ADJUST_is_refused :
  inventoryService.RecordStockMovement (noFaults 0)
    (movement "ADJUST" (-5) "recount" false) (fresh (oneProduct 100))
  = (Err (NewXError INVALID_REQUEST "Quantity must be greater than 0" CauseNil),
     fresh (oneProduct 100)).
Proof. reflexivity. Qed.

(** No negative quantity reaches the ADJUST case. *)
Lemma negative_quantity_refused
    (env : Env) (request : StockMovementRequest) (w : World) :
  Quantity request < 0 ->
  inventoryService.RecordStockMovement env request w
  = (Err (NewXError INVALID_REQUEST "Quantity must be greater than 0" CauseNil), w).
Proof.
  intros H. rewrite RecordStockMovement_run. unfold outcome.
  assert (E : (Quantity request <=? 0)%Z = true) by (apply Z.leb_le; lia).
  now rewrite E.
Qed.

(** The ADJUST case on a negative quantity, were it reached: the net change
    is the negated quantity, an addition. *)
Lemma ADJUST_case_of_negative_quantity (request : StockMovementRequest) (previousStock : Z) :
  ChangeType request = InventoryLogChangeTypeADJUST ->
  GoInt.min_int < Quantity request < 0 ->
  exists newStock netChange,
    inventoryService.calculate (ChangeType request) request previousStock
    = Ok (newStock, netChange)
    /\ netChange = - Quantity request
    /\ 0 < netChange.
Proof.
  intros Hct Hq. unfold inventoryService.calculate. rewrite Hct. simpl String.eqb.
  cbv iota.
  assert (E : (Quantity request >? 0)%Z = false) by (rewrite Z.gtb_ltb; apply Z.ltb_ge; lia).
  rewrite E. eexists. eexists. split; [reflexivity|].
  assert (GoInt.neg (Quantity request) = - Quantity request).
  { unfold GoInt.neg. apply GoIntFacts.wrap_id.
    unfold GoInt.in_range, GoInt.min_int, GoInt.max_int in *. lia. }
  split; lia.
Qed.

(** An ADJUST that is applied adds its quantity. *)
Lemma ADJUST_adds (env : Env) (request : StockMovementRequest) (w w' : World)
    (response : StockMovementResponse) :
  ChangeType request = InventoryLogChangeTypeADJUST ->
  inventoryService.RecordStockMovement env request w = (Ok response, w') ->
  0 < Quantity request
  /\ ChangeAmount response = Quantity request
  /\ NewStock response = GoInt.add (PreviousStock response) (Quantity request).
Proof.
  intros Hct H. apply RecordStockMovement_Ok_inv in H.
  destruct H as (inventory & newStock & netChange & Hq & Hv & Hs & Hc & -> & _).
  simpl. unfold inventoryService.calculate in Hc. rewrite Hct in Hc.
  simpl String.eqb in Hc. cbv iota zeta in Hc.
  assert (E : (Quantity request >? 0)%Z = true) by (rewrite Z.gtb_ltb; apply Z.ltb_lt; lia).
  rewrite E in Hc. injection Hc as <- <-. auto.
Qed.

(* ================================================================== *)
(** ** What a movement leaves alone *)

Lemma movedRows_sameButQuantity env productId newStock rows :
  Forall2 sameButQuantity rows (movedRows env productId newStock rows).
Proof.
  induction rows as [|r rows IH]; simpl; constructor; [|exact IH].
  destruct (inventoryRepository.hasProduct productId r);
    unfold sameButQuantity; simpl; repeat split.
Qed.

Lemma movedRows_other_products env productId newStock rows :
  Forall2 (fun before after =>
             Inventory.ProductId before <> productId -> after = before)
    rows (movedRows env productId newStock rows).
Proof.
  induction rows as [|r rows IH]; simpl; constructor; [|exact IH].
  unfold inventoryRepository.hasProduct.
  destruct (N.eqb_spec (Inventory.ProductId r) productId); [contradiction|reflexivity].
Qed.

(** C10.  A successful movement leaves every field of every snapshot row but
    the quantity and the last-updated time as it was (identifier, creation
    time, active flag, channel, product and low-stock threshold), and leaves
    the rows of other products untouched. *)
Theorem movement_keeps_other_fields
    (env : Env) (request : StockMovementRequest) (w w' : World)
    (response : StockMovementResponse) :
  inventoryService.RecordStockMovement env request w = (Ok response, w') ->
  Forall2 sameButQuantity (Inventories (view w)) (Inventories (view w'))
  /\ Forall2 (fun before after =>
                Inventory.ProductId before <> ProductId request -> after = before)
       (Inventories (view w)) (Inventories (view w')).
Proof.
  intros H. apply RecordStockMovement_Ok_inv in H.
  destruct H as (inventory & newStock & netChange & _ & _ & _ & _ & _ & Hview & _).
  rewrite Hview. simpl. split.
  - apply movedRows_sameButQuantity.
  - apply movedRows_other_products.
Qed.

Lemma movement_keeps_other_fields_witness :
  Forall2 sameButQuantity
    (Inventories (view (fresh (oneProduct 100))))
    (Inventories
       (view (snd (inventoryService.RecordStockMovement (noFaults 7)
                     (movement "IN" 50 "purchase" false) (fresh (oneProduct 100))))))
  /\ Forall2 (fun before after =>
                Inventory.ProductId before
                <> ProductId (movement "IN" 50 "purchase" false) ->
                after = before)
       (Inventories (view (fresh (oneProduct 100))))
       (Inventories
          (view (snd (inventoryService.RecordStockMovement (noFaults 7)
                        (movement "IN" 50 "purchase" false)
                        (fresh (oneProduct 100)))))).
Proof.
  apply (movement_keeps_other_fields (noFaults 7)
           (movement "IN" 50 "purchase" false) (fresh (oneProduct 100))
           (snd (inventoryService.RecordStockMovement (noFaults 7)
                   (movement "IN" 50 "purchase" false) (fresh (oneProduct 100))))
           {| Success := true;
              ResponseMessage := "Stock IN recorded successfully";
              ResponseProductId := 1%N;
              PreviousStock := 100; NewStock := 150; ChangeAmount := 50 |}).
  reflexivity.
Defined.

(* ================================================================== *)
(** ** The snapshot is the replayed ledger *)

Lemma find_map_hasProduct (productId : N) (f : Inventory.t -> Inventory.t) rows :
  (forall r, Inventory.ProductId (f r) = Inventory.ProductId r) ->
  find (inventoryRepository.hasProduct productId) (map f rows)
  = option_map f (find (inventoryRepository.hasProduct productId) rows).
Proof.
  intros Hf. induction rows as [|r rows IH]; simpl; [reflexivity|].
  unfold inventoryRepository.hasProduct at 1 3. rewrite Hf.
  destruct (Inventory.ProductId r =? productId)%N; [reflexivity | exact IH].
Qed.

Lemma snapshot_moved env request newStock d productId :
  snapshot (moved env request newStock d) productId
  = if (productId =? ProductId request)%N
    then option_map (inventoryRepository.setQuantity newStock (Now env))
           (snapshot d productId)
    else snapshot d productId.
Proof.
  unfold snapshot, moved, movedRows. simpl.
  rewrite find_map_hasProduct
    by (intros r; destruct (inventoryRepository.hasProduct _ r); reflexivity).
  destruct (find (inventoryRepository.hasProduct productId) (Inventories d))
    as [inventory|] eqn:E; simpl.
  - apply find_some in E. destruct E as [_ E].
    unfold inventoryRepository.hasProduct in *. apply N.eqb_eq in E. rewrite E.
    destruct (productId =? ProductId request)%N; reflexivity.
  - destruct (productId =? ProductId request)%N; reflexivity.
Qed.

Lemma ledger_moved env request newStock d productId :
  ledger (moved env request newStock d) productId
  = if (productId =? ProductId request)%N
    then ledger d productId ++ [appendedEntry env request (InventoryLogs d)]
    else ledger d productId.
Proof.
  unfold ledger, moved. simpl. rewrite filter_app. simpl.
  rewrite (N.eqb_sym productId).
  destruct (ProductId request =? productId)%N;
    [reflexivity | apply app_nil_r].
Qed.

Lemma SumNetChanges_app entries entry :
  SumNetChanges (entries ++ [entry])
  = GoInt.add (SumNetChanges entries) (InventoryLog.CalculateNetChange entry).
Proof. unfold SumNetChanges. rewrite fold_left_app. reflexivity. Qed.

(** The entry a movement appends replays to the movement's net change. *)
Lemma CalculateNetChange_appendedEntry env request previousStock newStock netChange logs :
  0 < Quantity request ->
  validChangeType (ChangeType request) ->
  inventoryService.calculate (ChangeType request) request previousStock
  = Ok (newStock, netChange) ->
  InventoryLog.CalculateNetChange (appendedEntry env request logs) = netChange.
Proof.
  intros Hq Hv. apply validChangeType_check in Hv.
  unfold inventoryService.calculate, InventoryLog.CalculateNetChange. simpl.
  cbv zeta.
  destruct (String.eqb (ChangeType request) InventoryLogChangeTypeIN);
    [intros H; injection H as _ <-; reflexivity|].
  destruct (String.eqb (ChangeType request) InventoryLogChangeTypeOUT).
  - clear Hv. destruct (_ && _); [discriminate|].
    intros H; injection H as _ <-; reflexivity.
  - destruct (String.eqb (ChangeType request) InventoryLogChangeTypeADJUST);
      [|discriminate Hv].
    assert (E : (Quantity request >? 0)%Z = true)
      by (rewrite Z.gtb_ltb; apply Z.ltb_lt; lia).
    rewrite E. intros H; injection H as _ <-; reflexivity.
Qed.

(** One successful movement keeps the snapshot of every product equal to its
    replayed ledger. *)
Lemma movement_preserves_sum env request w w' response productId :
  inventoryService.RecordStockMovement env request w = (Ok response, w') ->
  (exists inventory,
      snapshot (view w) productId = Some inventory
      /\ Inventory.Quantity inventory = SumNetChanges (ledger (view w) productId)) ->
  exists inventory,
    snapshot (view w') productId = Some inventory
    /\ Inventory.Quantity inventory = SumNetChanges (ledger (view w') productId).
Proof.
  intros H (before & Hbefore & Hsum). apply RecordStockMovement_Ok_inv in H.
  destruct H as (inventory & newStock & netChange & Hq & Hv & Hs & Hc & _ & Hview & _).
  rewrite Hview, snapshot_moved, ledger_moved.
  destruct (N.eqb_spec productId (ProductId request)) as [->|Hne].
  - rewrite Hs. simpl. eexists. split; [reflexivity|]. simpl.
    rewrite SumNetChanges_app,
      (CalculateNetChange_appendedEntry _ _ _ _ _ _ Hq Hv Hc).
    rewrite Hs in Hbefore. injection Hbefore as <-. rewrite <- Hsum.
    exact (calculate_sum _ _ _ _ Hv Hc).
  - exists before. split; assumption.
Qed.

Lemma SumNetChanges_from (entries : list InventoryLog.t) (start : Z) :
  GoInt.wrap
    (fold_left (fun acc l => GoInt.add acc (InventoryLog.CalculateNetChange l))
       entries start)
  = GoInt.wrap (start + NetChangeTotal entries).
Proof.
  revert start. induction entries as [|entry entries IH]; intros start; simpl.
  - f_equal. lia.
  - rewrite IH. unfold GoInt.add. rewrite GoIntFacts.wrap_wrap_add_l.
    f_equal. lia.
Qed.

Lemma SumNetChanges_in_range (entries : list InventoryLog.t) :
  GoInt.in_range (SumNetChanges entries).
Proof.
  unfold SumNetChanges.
  destruct entries as [|entry entries] using rev_ind.
  - simpl. unfold GoInt.in_range, GoInt.min_int, GoInt.max_int. lia.
  - rewrite fold_left_app. simpl. apply GoIntFacts.wrap_in_range.
Qed.

(** Replaying on [int] is the integer sum, wrapped. *)
Lemma SumNetChanges_wrap (entries : list InventoryLog.t) :
  SumNetChanges entries = GoInt.wrap (NetChangeTotal entries).
Proof.
  rewrite <- (GoIntFacts.wrap_id _ (SumNetChanges_in_range entries)).
  unfold SumNetChanges. rewrite SumNetChanges_from. reflexivity.
Qed.

(** C1.  From the snapshot of a product created with quantity 0 and no ledger
    entry of the product, every sequence of successful movements (of this or
    of other products) leaves a snapshot whose quantity is the sum, on [int],
    of the net changes [CalculateNetChange] gives for the ledger entries of
    the product; it is their sum as integers whenever that sum is an [int]. *)
Theorem snapshot_is_ledger_sum
    (d0 d : DB) (productId : N) (created : Inventory.t) :
  snapshot d0 productId = Some created ->
  Inventory.Quantity created = 0 ->
  ledger d0 productId = [] ->
  Reachable d0 d ->
  exists inventory,
    snapshot d productId = Some inventory
    /\ Inventory.Quantity inventory = SumNetChanges (ledger d productId)
    /\ (GoInt.in_range (NetChangeTotal (ledger d productId)) ->
        Inventory.Quantity inventory = NetChangeTotal (ledger d productId)).
Proof.
  intros Hs H0 Hl Hreach.
  assert (Hsum : exists inventory,
             snapshot d productId = Some inventory
             /\ Inventory.Quantity inventory = SumNetChanges (ledger d productId)).
  { induction Hreach as [|w w' env request response _ IH Hmove].
    - exists created. split; [exact Hs|]. rewrite Hl. exact H0.
    - exact (movement_preserves_sum _ _ _ _ _ _ Hmove IH). }
  destruct Hsum as (inventory & Hsnap & Hq).
  exists inventory. split; [exact Hsnap|]. split; [exact Hq|].
  intros Hr. rewrite Hq, SumNetChanges_wrap. now apply GoIntFacts.wrap_id.
Qed.

Lemma snapshot_is_ledger_sum_witness :
  exists inventory,
    snapshot (view afterSale) 1%N = Some inventory
    /\ Inventory.Quantity inventory = SumNetChanges (ledger (view afterSale) 1%N)
    /\ (GoInt.in_range (NetChangeTotal (ledger (view afterSale) 1%N)) ->
        Inventory.Quantity inventory = NetChangeTotal (ledger (view afterSale) 1%N)).
Proof.
  apply (snapshot_is_ledger_sum (oneProduct 0) (view afterSale) 1%N
           (snapshotRow 1 1 0 20)).
  - reflexivity.
  - reflexivity.
  - reflexivity.
  - apply (Reachable_move (oneProduct 0) (fresh (view afterPurchase)) afterSale
             (noFaults 2) (movement "OUT" 20 "sale" false)
             {| Success := true;
                ResponseMessage := "Stock OUT recorded successfully";
                ResponseProductId := 1%N;
                PreviousStock := 50; NewStock := 30; ChangeAmount := -20 |}).
    + apply (Reachable_move (oneProduct 0) (fresh (oneProduct 0)) afterPurchase
               (noFaults 1) (movement "IN" 50 "purchase" false)
               {| Success := true;
                  ResponseMessage := "Stock IN recorded successfully";
                  ResponseProductId := 1%N;
                  PreviousStock := 0; NewStock := 50; ChangeAmount := 50 |}).
      * apply Reachable_start.
      * reflexivity.
    + reflexivity.
Defined.

Example purchase_then_sale :
  option_map Inventory.Quantity (snapshot (view afterSale) 1%N) = Some 30
  /\ map InventoryLog.CalculateNetChange (ledger (view afterSale) 1%N) = [50; -20]
  /\ SumNetChanges (ledger (view afterSale) 1%N) = 30
  /\ NetChangeTotal (ledger (view afterSale) 1%N) = 30.
Proof. repeat split. Qed.

(** The snapshot [SaveProduct] creates for a new product holds quantity 0 and
    the product has the ledger it had. *)
Lemma SaveProduct_inventory_snapshot env dbProductID lowStockThreshold w w' :
  productService.SaveProduct_inventory env dbProductID lowStockThreshold w
  = (Ok tt, w') ->
  (exists created,
      snapshot (view w') dbProductID = Some created
      /\ Inventory.Quantity created = 0
      /\ Inventory.LowStockThreshold created = lowStockThreshold)
  /\ ledger (view w') dbProductID = ledger (view w) dbProductID.
Proof.
  unfold productService.SaveProduct_inventory, inventoryRepository.Create, bind.
  rewrite WithDB_run. simpl Inventory.ProductId.
  destruct (existsb _ _) eqn:Ex; [discriminate|].
  unfold gorm.Create, gorm.Error.
  destruct (fails env OpInventoryCreate); [discriminate|].
  unfold store. intros H. injection H as <-. simpl. split; [|reflexivity].
  unfold snapshot. simpl.
  assert (Hnone : forall rows,
             existsb (inventoryRepository.hasProduct dbProductID) rows = false ->
             forall x, inventoryRepository.hasProduct dbProductID x = true ->
             find (inventoryRepository.hasProduct dbProductID) (rows ++ [x]) = Some x).
  { induction rows as [|r rows IH]; simpl; intros Hex x Hx.
    - now rewrite Hx.
    - apply orb_false_iff in Hex. destruct Hex as [Hr Hex].
      rewrite Hr. now apply IH. }
  rewrite (Hnone _ Ex) by (unfold inventoryRepository.hasProduct; simpl;
                            apply N.eqb_refl).
  eexists. split; [reflexivity|]. split; reflexivity.
Qed.

(* ================================================================== *)
(** ** The transaction of a request *)

Lemma committed_Commit w : committed (transactionManager.Commit w) = view w.
Proof. destruct w as [c [working|] sent]; reflexivity. Qed.

Lemma committed_Rollback w : committed (transactionManager.Rollback w) = committed w.
Proof. destruct w as [c [working|] sent]; reflexivity. Qed.

(** With the update of the quantity refused, no movement succeeds. *)
Lemma refused_update_fails env request w response w' :
  fails env OpInventoryUpdateQuantity = true ->
  inventoryService.RecordStockMovement env request w <> (Ok response, w').
Proof.
  intros Hf. rewrite RecordStockMovement_run. unfold outcome.
  destruct (Quantity request <=? 0)%Z; [discriminate|].
  destruct (negb _ && negb _ && negb _); [discriminate|].
  destruct gorm.First; [discriminate|].
  destruct inventoryService.calculate as [[newStock netChange]|e]; [|discriminate].
  destruct (fails env OpInventoryLogCreate); [discriminate|].
  rewrite Hf. discriminate.
Qed.

(** With the append accepted and the update refused, the service returns with
    the entry in the working copy of the transaction and the snapshot as it
    was: undoing the append is left to whoever ends the transaction. *)
Lemma refused_update_leaves_entry env request w e w' :
  inventoryService.RecordStockMovement env request w = (Err e, w') ->
  Kind e = DATABASE ->
  fails env OpInventoryLogCreate = false ->
  InventoryLogs (view w')
  = InventoryLogs (view w) ++ [appendedEntry env request (InventoryLogs (view w))]
  /\ Inventories (view w') = Inventories (view w)
  /\ committed w' = committed w.
Proof.
  rewrite RecordStockMovement_run. unfold outcome. intros H HK Hlog. revert H.
  destruct (Quantity request <=? 0)%Z;
    [intros H; injection H as <- <-; discriminate HK|].
  destruct (negb _ && negb _ && negb _);
    [intros H; injection H as <- <-; discriminate HK|].
  destruct gorm.First as [g|inventory];
    [intros H; injection H as <- <-; discriminate HK|].
  destruct inventoryService.calculate as [[newStock netChange]|e0] eqn:Ec.
  - rewrite Hlog.
    destruct (fails env OpInventoryUpdateQuantity); [|discriminate].
    intros H; injection H as <- <-. repeat split.
  - intros H; injection H as <- <-. apply calculate_Err in Ec. subst e0.
    discriminate HK.
Qed.

(** C2.  A movement that fails before its writes (every such failure is an
    INVALID_REQUEST: quantity, change type, missing snapshot, insufficient
    stock) leaves the rows seen through the context and the committed rows as
    they were, having sent no statement or only the read of the snapshot.
    Served within the transaction of its request, a movement
    either fails and the committed tables are what they were, or succeeds and
    the committed tables hold both the appended ledger entry and the new
    quantity; in particular, when the update of the quantity is refused after
    the entry was appended, the entry is not in the committed tables. *)
Theorem movement_is_atomic
    (MALFORMED_REQUEST : string) (env : Env) (request : StockMovementRequest)
    (d : DB) :
  let served := Serve_RecordStockMovement MALFORMED_REQUEST env request d in
  (forall w e w',
      inventoryService.RecordStockMovement env request w = (Err e, w') ->
      Kind e = INVALID_REQUEST ->
      view w' = view w
      /\ committed w' = committed w
      /\ (w' = w \/ w' = touch OpInventoryGetByProductId w))
  /\ match body (fst served) with
     | DefaultFailureResponse _ => snd served = d
     | DefaultSuccessResponse response =>
         snd served = moved env request (NewStock response) d
     end
  /\ (fails env OpInventoryUpdateQuantity = true -> snd served = d).
Proof.
  cbv zeta. split; [|split].
  - intros w e w' H HK. apply RecordStockMovement_Err_inv in H.
    destruct H as (Hc & _ & Hv & _). destruct (Hv HK) as [Hview Hw].
    split; [exact Hview | split; [exact Hc | exact Hw]].
  - unfold Serve_RecordStockMovement, Handler_RecordStockMovement.
    destruct (Bind request); simpl.
    + reflexivity.
    + destruct (inventoryService.RecordStockMovement env request (fresh d))
        as [[response|e] w'] eqn:E; simpl.
      * rewrite committed_Commit.
        apply RecordStockMovement_Ok_inv in E.
        destruct E as (inventory & newStock & netChange & _ & _ & _ & _ & -> & Hv & _).
        exact Hv.
      * rewrite committed_Rollback.
        apply RecordStockMovement_Err_inv in E. destruct E as (Hc & _). exact Hc.
  - intros Hf. unfold Serve_RecordStockMovement, Handler_RecordStockMovement.
    destruct (Bind request); simpl.
    + reflexivity.
    + destruct (inventoryService.RecordStockMovement env request (fresh d))
        as [[response|e] w'] eqn:E; simpl.
      * exfalso. exact (refused_update_fails _ _ _ _ _ Hf E).
      * rewrite committed_Rollback.
        apply RecordStockMovement_Err_inv in E. destruct E as (Hc & _). exact Hc.
Qed.

(** The update of the quantity refused: inside the transaction the entry was
    appended, and the committed tables do not have it. *)
Lemma movement_is_atomic_witness :
  ledger
    (view (snd (inventoryService.RecordStockMovement
                  (failing 0 OpInventoryUpdateQuantity)
                  (movement "IN" 5 "purchase" false) (fresh (oneProduct 100)))))
    1%N <> []
  /\ snd (Serve_RecordStockMovement "malformed request"
            (failing 0 OpInventoryUpdateQuantity)
            (movement "IN" 5 "purchase" false) (oneProduct 100))
     = oneProduct 100.
Proof.
  split.
  - discriminate.
  - apply (movement_is_atomic "malformed request"
             (failing 0 OpInventoryUpdateQuantity)
             (movement "IN" 5 "purchase" false) (oneProduct 100)).
    reflexivity.
Defined.

Example served_purchase_commits_both :
  snd (Serve_RecordStockMovement "malformed request" (noFaults 7)
         (movement "IN" 50 "purchase" false) (oneProduct 100))
  = moved (noFaults 7) (movement "IN" 50 "purchase" false) 150 (oneProduct 100).
Proof. reflexivity. Qed.

(* ================================================================== *)
(** ** The threshold *)

Lemma UpdateThreshold_run_service env inventory id w :
  inventoryService.UpdateThreshold env inventory id w =
  match gorm.Find env OpInventoryGet (inventoryRepository.hasID id)
          (Inventories (view w)) with
  | inl e =>
      (Err (NewXError DATABASE "Unable to find inventory" (CauseGorm e)),
       touch OpInventoryGet w)
  | inr currentInventory =>
      if fails env OpInventoryUpdateThreshold
      then (Err (NewXError DATABASE "Unable to update low stock threshold"
                   (CauseGorm ErrStorage)),
            touch OpInventoryUpdateThreshold (touch OpInventoryGet w))
      else (Ok tt,
            write OpInventoryUpdateThreshold
              {| Inventories :=
                   map (fun r =>
                          if inventoryRepository.hasProduct
                               (Inventory.ProductIdOf currentInventory) r
                          then inventoryRepository.setThreshold
                                 (ReqLowStockThreshold inventory) (Now env) r
                          else r) (Inventories (view w));
                 InventoryLogs := InventoryLogs (view w) |}
              (touch OpInventoryGet w))
  end.
Proof.
  unfold inventoryService.UpdateThreshold, bind. rewrite Get_run.
  destruct gorm.Find as [e|currentInventory]; [reflexivity|].
  rewrite UpdateThreshold_run. reflexivity.
Qed.




(* ================================================================== *)
(** ** The reason *)

(** C7, as stated, fails.  [RecordStockMovement] applies a movement whose
    reason is empty, and the ledger holds an entry without a reason; and the
    handler answers a movement with a negative quantity and an empty reason
    with the binding failure, not with the failure of the quantity check. *)
Lemma empty_reason_counterexample :
  Reason (movement "IN" 50 "" false) = ""
  /\ ~ (exists e w',
          inventoryService.RecordStockMovement (noFaults 7)
            (movement "IN" 50 "" false) (fresh (oneProduct 100)) = (Err e, w'))
  /\ map InventoryLog.Reason
       (ledger
          (view (snd (inventoryService.RecordStockMovement (noFaults 7)
                        (movement "IN" 50 "" false) (fresh (oneProduct 100)))))
          1%N)
     = [""]
  /\ fst (Handler_RecordStockMovement "malformed request" (noFaults 7)
            (movement "IN" (-1) "" false) (fresh (oneProduct 100)))
     = {| body := DefaultFailureResponse
                    (NewXError INVALID_REQUEST "malformed request" CauseBind);
          status := StatusBadRequest |}.
Proof.
  split; [reflexivity|]. split; [|split; reflexivity].
  intros (e & w' & H). vm_compute in H. discriminate H.
Qed.

(** C7, amended.  A movement whose reason is empty is refused by the handler
    when the request is bound, with INVALID_REQUEST and status 400, whatever
    its quantity and change type: before [RecordStockMovement] and its
    quantity and change-type checks run, and with the world left exactly as it
    was (no statement sent, nothing read or written). *)
Theorem empty_reason_rejected_at_binding
    (MALFORMED_REQUEST : string) (env : Env) (request : StockMovementRequest)
    (w : World) :
  Reason request = "" ->
  Handler_RecordStockMovement MALFORMED_REQUEST env request w
  = ({| body := DefaultFailureResponse
                  (NewXError INVALID_REQUEST MALFORMED_REQUEST CauseBind);
        status := StatusBadRequest |}, w).
Proof.
  intros H. unfold Handler_RecordStockMovement, Bind. rewrite H. simpl String.eqb.
  rewrite !orb_true_r. reflexivity.
Qed.

Lemma empty_reason_rejected_at_binding_witness :
  Handler_RecordStockMovement "malformed request" (noFaults 7)
    (movement "IN" 50 "" false) (fresh (oneProduct 100))
  = ({| body := DefaultFailureResponse
                  (NewXError INVALID_REQUEST "malformed request" CauseBind);
        status := StatusBadRequest |}, fresh (oneProduct 100)).
Proof.
  apply (empty_reason_rejected_at_binding "malformed request" (noFaults 7)
           (movement "IN" 50 "" false) (fresh (oneProduct 100))).
  reflexivity.
Defined.

(* ================================================================== *)
(** ** The transaction of a context *)

(** X1.  [WithTransaction] begins a transaction only when the context has
    none: called again, it hands out the same transaction and leaves the world
    as it is.  Beginning a transaction changes neither the committed tables
    nor what the context sees. *)
Theorem WithTransaction_reuses_transaction (w : World) :
  transactionManager.WithTransaction
    (snd (transactionManager.WithTransaction w))
  = transactionManager.WithTransaction w
  /\ ctx (snd (transactionManager.WithTransaction w))
     = Some (fst (transactionManager.WithTransaction w))
  /\ fst (transactionManager.WithTransaction w) = view w
  /\ committed (snd (transactionManager.WithTransaction w)) = committed w.
Proof. destruct w as [c [working|] sent]; repeat split. Qed.


(* ================================================================== *)
(** ** Movements, composed *)

(** The snapshot a successful movement leaves. *)
Lemma snapshot_after_movement env request w w' response inventory :
  inventoryService.RecordStockMovement env request w = (Ok response, w') ->
  snapshot (view w) (ProductId request) = Some inventory ->
  snapshot (view w') (ProductId request)
  = Some (inventoryRepository.setQuantity (NewStock response) (Now env) inventory).
Proof.
  intros H Hs. apply RecordStockMovement_Ok_inv in H.
  destruct H as (inventory' & newStock & netChange & _ & _ & Hs' & _ & -> & Hview & _).
  rewrite Hview, snapshot_moved, N.eqb_refl, Hs. reflexivity.
Qed.

(** X3.  After a successful movement the snapshot of the product holds the
    [newStock] of the response and the threshold it had, so that it is low on
    stock exactly when the new stock is at most that threshold. *)
Theorem movement_is_read_back
    (env : Env) (request : StockMovementRequest) (w w' : World)
    (response : StockMovementResponse) :
  inventoryService.RecordStockMovement env request w = (Ok response, w') ->
  exists before after,
    snapshot (view w) (ProductId request) = Some before
    /\ snapshot (view w') (ProductId request) = Some after
    /\ Inventory.Quantity after = NewStock response
    /\ Inventory.LowStockThreshold after = Inventory.LowStockThreshold before
    /\ Inventory.IsLowStock after
       = (NewStock response <=? Inventory.LowStockThreshold before)%Z.
Proof.
  intros H. pose proof H as H'. apply RecordStockMovement_Ok_inv in H'.
  destruct H' as (before & _ & _ & _ & _ & Hs & _).
  exists before. eexists. split; [exact Hs|].
  split; [exact (snapshot_after_movement _ _ _ _ _ _ H Hs)|].
  repeat split.
Qed.

Lemma movement_is_read_back_witness :
  exists before after,
    snapshot (view (fresh (oneProduct 5))) 1%N = Some before
    /\ snapshot
         (view (snd (inventoryService.RecordStockMovement (noFaults 3)
                       (movement "IN" 30 "restock" false) (fresh (oneProduct 5)))))
         1%N = Some after
    /\ Inventory.Quantity after = 35
    /\ Inventory.LowStockThreshold after = Inventory.LowStockThreshold before
    /\ Inventory.IsLowStock after = (35 <=? Inventory.LowStockThreshold before)%Z.
Proof.
  apply (movement_is_read_back (noFaults 3) (movement "IN" 30 "restock" false)
           (fresh (oneProduct 5))
           (snd (inventoryService.RecordStockMovement (noFaults 3)
                   (movement "IN" 30 "restock" false) (fresh (oneProduct 5))))
           {| Success := true;
              ResponseMessage := "Stock IN recorded successfully";
              ResponseProductId := 1%N;
              PreviousStock := 5; NewStock := 35; ChangeAmount := 30 |}).
  reflexivity.
Defined.

(** X4.  A successful OUT without [adminOverride] never leaves a negative
    stock: its [newStock] is at least 0. *)
Theorem OUT_without_override_is_not_negative
    (env : Env) (request : StockMovementRequest) (w w' : World)
    (response : StockMovementResponse) :
  ChangeType request = InventoryLogChangeTypeOUT ->
  AdminOverride request = false ->
  inventoryService.RecordStockMovement env request w = (Ok response, w') ->
  0 <= NewStock response.
Proof.
  intros Hct Hov H. apply RecordStockMovement_Ok_inv in H.
  destruct H as (inventory & newStock & netChange & _ & _ & _ & Hc & -> & _).
  simpl. unfold inventoryService.calculate in Hc. rewrite Hct in Hc.
  simpl String.eqb in Hc. cbv iota zeta in Hc. rewrite Hov in Hc.
  destruct (GoInt.add _ _ <? 0)%Z eqn:E; [discriminate|].
  simpl in Hc. injection Hc as <- _. now apply Z.ltb_ge in E.
Qed.

Lemma OUT_without_override_is_not_negative_witness :
  0 <= NewStock {| Success := true;
                   ResponseMessage := "Stock OUT recorded successfully";
                   ResponseProductId := 1%N;
                   PreviousStock := 10; NewStock := 0; ChangeAmount := -10 |}.
Proof.
  apply (OUT_without_override_is_not_negative (noFaults 3)
           (movement "OUT" 10 "sale" false) (fresh (oneProduct 10))
           (snd (inventoryService.RecordStockMovement (noFaults 3)
                   (movement "OUT" 10 "sale" false) (fresh (oneProduct 10))))).
  - reflexivity.
  - reflexivity.
  - reflexivity.
Defined.

(** X5.  An IN and then an OUT of the same quantity on the same product, both
    successful, bring the stock back to what it was: the [newStock] of the
    OUT is the [previousStock] of the IN, whenever that is an [int]. *)
Theorem IN_then_OUT_restores_stock
    (env1 env2 : Env) (stockIn stockOut : StockMovementRequest)
    (w w1 w2 w3 : World) (r1 r2 : StockMovementResponse) :
  ChangeType stockIn = InventoryLogChangeTypeIN ->
  ChangeType stockOut = InventoryLogChangeTypeOUT ->
  ProductId stockOut = ProductId stockIn ->
  Quantity stockOut = Quantity stockIn ->
  inventoryService.RecordStockMovement env1 stockIn w = (Ok r1, w1) ->
  view w2 = view w1 ->
  inventoryService.RecordStockMovement env2 stockOut w2 = (Ok r2, w3) ->
  GoInt.in_range (PreviousStock r1) ->
  PreviousStock r2 = NewStock r1 /\ NewStock r2 = PreviousStock r1.
Proof.
  intros Hin Hout Hp Hq H1 Hv H2 Hr.
  pose proof H1 as H1'. apply RecordStockMovement_Ok_inv in H1'.
  destruct H1' as (i1 & n1 & c1 & _ & _ & Hs1 & Hc1 & E1 & _).
  pose proof (snapshot_after_movement _ _ _ _ _ _ H1 Hs1) as Hsnap.
  apply RecordStockMovement_Ok_inv in H2.
  destruct H2 as (i2 & n2 & c2 & _ & _ & Hs2 & Hc2 & E2 & _).
  rewrite Hv, Hp, Hsnap in Hs2. injection Hs2 as <-.
  subst r1 r2. simpl in *.
  unfold inventoryService.calculate in Hc1, Hc2.
  rewrite Hin in Hc1. rewrite Hout in Hc2. simpl String.eqb in Hc1, Hc2.
  cbv iota zeta in Hc1, Hc2. injection Hc1 as <- <-.
  destruct (_ && _) in Hc2; [discriminate|]. injection Hc2 as <- <-.
  split; [reflexivity|].
  rewrite Hq. unfold GoInt.add, GoInt.neg.
  rewrite GoIntFacts.wrap_wrap_add_r, GoIntFacts.wrap_wrap_add_l.
  replace (Inventory.Quantity i1 + Quantity stockIn + - Quantity stockIn)
    with (Inventory.Quantity i1) by lia.
  now apply GoIntFacts.wrap_id.
Qed.

Lemma IN_then_OUT_restores_stock_witness :
  PreviousStock
    {| Success := true; ResponseMessage := "Stock OUT recorded successfully";
       ResponseProductId := 1%N;
       PreviousStock := 35; NewStock := 5; ChangeAmount := -30 |}
  = NewStock
      {| Success := true; ResponseMessage := "Stock IN recorded successfully";
         ResponseProductId := 1%N;
         PreviousStock := 5; NewStock := 35; ChangeAmount := 30 |}
  /\ NewStock
       {| Success := true; ResponseMessage := "Stock OUT recorded successfully";
          ResponseProductId := 1%N;
          PreviousStock := 35; NewStock := 5; ChangeAmount := -30 |}
     = PreviousStock
         {| Success := true; ResponseMessage := "Stock IN recorded successfully";
            ResponseProductId := 1%N;
            PreviousStock := 5; NewStock := 35; ChangeAmount := 30 |}.
Proof.
  apply (IN_then_OUT_restores_stock (noFaults 3) (noFaults 4)
           (movement "IN" 30 "restock" false) (movement "OUT" 30 "return" false)
           (fresh (oneProduct 5))
           (snd (inventoryService.RecordStockMovement (noFaults 3)
                   (movement "IN" 30 "restock" false) (fresh (oneProduct 5))))
           (fresh (view (snd (inventoryService.RecordStockMovement (noFaults 3)
                   (movement "IN" 30 "restock" false) (fresh (oneProduct 5))))))
           (snd (inventoryService.RecordStockMovement (noFaults 4)
                   (movement "OUT" 30 "return" false)
                   (fresh (view (snd (inventoryService.RecordStockMovement
                      (noFaults 3) (movement "IN" 30 "restock" false)
                      (fresh (oneProduct 5)))))))));
    try reflexivity.
  unfold GoInt.in_range, GoInt.min_int, GoInt.max_int. simpl. lia.
Defined.

(* ================================================================== *)
(** ** The snapshot of a new product *)

Lemma find_existsb {A} (p : A -> bool) (rows : list A) :
  existsb p rows = match find p rows with Some _ => true | None => false end.
Proof.
  induction rows as [|r rows IH]; simpl; [reflexivity|].
  destruct (p r); [reflexivity | exact IH].
Qed.

Lemma find_app_last {A} (p : A -> bool) (rows : list A) (x : A) :
  find p (rows ++ [x])
  = match find p rows with
    | Some r => Some r
    | None => if p x then Some x else None
    end.
Proof.
  induction rows as [|r rows IH]; simpl; [reflexivity|].
  destruct (p r); [reflexivity | exact IH].
Qed.

(** X6.  The inventory row [SaveProduct] creates for a new product is the
    snapshot of the product, with quantity 0 and the threshold of the request;
    the snapshots of the other products, the ledger and the committed tables
    are as they were. *)
Theorem SaveProduct_creates_empty_snapshot
    (env : Env) (dbProductID : N) (lowStockThreshold : Z) (w w' : World) :
  productService.SaveProduct_inventory env dbProductID lowStockThreshold w
  = (Ok tt, w') ->
  (exists created,
      snapshot (view w') dbProductID = Some created
      /\ Inventory.Quantity created = 0
      /\ Inventory.LowStockThreshold created = lowStockThreshold)
  /\ (forall productId,
         productId <> dbProductID ->
         snapshot (view w') productId = snapshot (view w) productId)
  /\ InventoryLogs (view w') = InventoryLogs (view w)
  /\ committed w' = committed w.
Proof.
  intros H. split; [exact (proj1 (SaveProduct_inventory_snapshot _ _ _ _ _ H))|].
  revert H.
  unfold productService.SaveProduct_inventory, inventoryRepository.Create, bind.
  rewrite WithDB_run. simpl Inventory.ProductId.
  destruct (existsb _ _); [discriminate|].
  unfold gorm.Create, gorm.Error.
  destruct (fails env OpInventoryCreate); [discriminate|].
  unfold store. intros H. injection H as <-. simpl.
  split; [|split; reflexivity].
  intros productId Hne. unfold snapshot. simpl. rewrite find_app_last.
  destruct (find _ _); [reflexivity|].
  unfold inventoryRepository.hasProduct. simpl.
  destruct (N.eqb_spec dbProductID productId); [congruence | reflexivity].
Qed.

Lemma SaveProduct_creates_empty_snapshot_witness :
  (exists created,
      snapshot
        (view (snd (productService.SaveProduct_inventory (noFaults 1) 2%N 15
                      (fresh (oneProduct 100))))) 2%N = Some created
      /\ Inventory.Quantity created = 0
      /\ Inventory.LowStockThreshold created = 15)
  /\ (forall productId,
         productId <> 2%N ->
         snapshot
           (view (snd (productService.SaveProduct_inventory (noFaults 1) 2%N 15
                         (fresh (oneProduct 100))))) productId
         = snapshot (view (fresh (oneProduct 100))) productId)
  /\ InventoryLogs
       (view (snd (productService.SaveProduct_inventory (noFaults 1) 2%N 15
                     (fresh (oneProduct 100)))))
     = InventoryLogs (view (fresh (oneProduct 100)))
  /\ committed (snd (productService.SaveProduct_inventory (noFaults 1) 2%N 15
                       (fresh (oneProduct 100))))
     = committed (fresh (oneProduct 100)).
Proof.
  apply (SaveProduct_creates_empty_snapshot (noFaults 1) 2%N 15
           (fresh (oneProduct 100))
           (snd (productService.SaveProduct_inventory (noFaults 1) 2%N 15
                   (fresh (oneProduct 100))))).
  reflexivity.
Defined.

(** X7.  A product has one snapshot: creating the inventory row of a product
    that already has one is refused with a DATABASE error, "Unable to create
    inventory", and the tables are left as they were. *)
Theorem second_snapshot_is_refused
    (env : Env) (dbProductID : N) (lowStockThreshold : Z) (w : World)
    (existing : Inventory.t) :
  snapshot (view w) dbProductID = Some existing ->
  exists cause w',
    productService.SaveProduct_inventory env dbProductID lowStockThreshold w
    = (Err (NewXError DATABASE "Unable to create inventory" cause), w')
    /\ view w' = view w
    /\ committed w' = committed w.
Proof.
  intros Hs.
  unfold productService.SaveProduct_inventory, inventoryRepository.Create, bind.
  rewrite WithDB_run. cbn [Inventory.ProductId].
  rewrite find_existsb. unfold snapshot in Hs. rewrite Hs.
  eexists. eexists. split; [reflexivity|]. split; reflexivity.
Qed.

Lemma second_snapshot_is_refused_witness :
  exists cause w',
    productService.SaveProduct_inventory (noFaults 1) 1%N 15 (fresh (oneProduct 100))
    = (Err (NewXError DATABASE "Unable to create inventory" cause), w')
    /\ view w' = view (fresh (oneProduct 100))
    /\ committed w' = committed (fresh (oneProduct 100)).
Proof.
  apply (second_snapshot_is_refused (noFaults 1) 1%N 15 (fresh (oneProduct 100))
           (snapshotRow 1 1 100 20)).
  reflexivity.
Defined.

(* ================================================================== *)
(** ** The threshold, read back *)

Lemma map_unmatched {A} (p : A -> bool) (g : A -> A) (rows : list A) :
  find p rows = None ->
  map (fun r => if p r then g r else r) rows = rows.
Proof.
  induction rows as [|r rows IH]; simpl; [reflexivity|].
  destruct (p r); [discriminate|]. intros H. now rewrite IH.
Qed.

(** X8.  A successful [UpdateThreshold] of an existing inventory row stores
    the threshold of the request in the snapshot of the row's product, whose
    quantity stays and whose last-updated time becomes the time of the
    update; the snapshots of the other products are as they were. *)
Theorem UpdateThreshold_is_read_back
    (env : Env) (inventory : InventoryRequest) (id : N) (w w' : World)
    (current : Inventory.t) :
  find (inventoryRepository.hasID id) (Inventories (view w)) = Some current ->
  inventoryService.UpdateThreshold env inventory id w = (Ok tt, w') ->
  (exists before after,
      snapshot (view w) (Inventory.ProductId current) = Some before
      /\ snapshot (view w') (Inventory.ProductId current) = Some after
      /\ Inventory.LowStockThreshold after = ReqLowStockThreshold inventory
      /\ Inventory.Quantity after = Inventory.Quantity before
      /\ UpdatedAt (Inventory.model after) = Now env
      /\ sameButThreshold before after)
  /\ (forall productId,
         productId <> Inventory.ProductId current ->
         snapshot (view w') productId = snapshot (view w) productId).
Proof.
  intros Hid. rewrite UpdateThreshold_run_service.
  unfold gorm.Find, gorm.Error.
  destruct (fails env OpInventoryGet); [discriminate|]. rewrite Hid.
  destruct (fails env OpInventoryUpdateThreshold); [discriminate|].
  intros H. injection H as <-. simpl. unfold snapshot. simpl.
  assert (Hf : forall r : Inventory.t,
             Inventory.ProductId
               (if inventoryRepository.hasProduct (Inventory.ProductId current) r
                then inventoryRepository.setThreshold
                       (ReqLowStockThreshold inventory) (Now env) r
                else r)
             = Inventory.ProductId r)
    by (intros r; destruct (inventoryRepository.hasProduct _ r); reflexivity).
  split.
  - rewrite (find_map_hasProduct _ _ _ Hf).
    destruct (find (inventoryRepository.hasProduct (Inventory.ProductId current))
                (Inventories (view w))) as [before|] eqn:E.
    + exists before. eexists. split; [reflexivity|]. simpl.
      apply find_some in E. destruct E as [_ E]. rewrite E.
      split; [reflexivity|]. unfold sameButThreshold. simpl. repeat split.
    + exfalso. apply find_some in Hid. destruct Hid as [Hin _].
      apply (find_none _ _ E) in Hin.
      unfold inventoryRepository.hasProduct in Hin.
      now rewrite N.eqb_refl in Hin.
  - intros productId Hne. rewrite (find_map_hasProduct _ _ _ Hf).
    destruct (find (inventoryRepository.hasProduct productId)
                (Inventories (view w))) as [r|] eqn:E; [|reflexivity].
    simpl. apply find_some in E. destruct E as [_ E].
    unfold inventoryRepository.hasProduct in *. apply N.eqb_eq in E.
    rewrite E. destruct (N.eqb_spec productId (Inventory.ProductId current));
      [contradiction | reflexivity].
Qed.

Lemma UpdateThreshold_is_read_back_witness :
  (exists before after,
      snapshot (view (fresh (oneProduct 100)))
        (Inventory.ProductId (snapshotRow 1 1 100 20)) = Some before
      /\ snapshot
           (view (snd (inventoryService.UpdateThreshold (noFaults 1)
                         {| ReqLowStockThreshold := 35 |} 1%N
                         (fresh (oneProduct 100)))))
           (Inventory.ProductId (snapshotRow 1 1 100 20)) = Some after
      /\ Inventory.LowStockThreshold after
         = ReqLowStockThreshold {| ReqLowStockThreshold := 35 |}
      /\ Inventory.Quantity after = Inventory.Quantity before
      /\ UpdatedAt (Inventory.model after) = Now (noFaults 1)
      /\ sameButThreshold before after)
  /\ (forall productId,
         productId <> Inventory.ProductId (snapshotRow 1 1 100 20) ->
         snapshot
           (view (snd (inventoryService.UpdateThreshold (noFaults 1)
                         {| ReqLowStockThreshold := 35 |} 1%N
                         (fresh (oneProduct 100))))) productId
         = snapshot (view (fresh (oneProduct 100))) productId).
Proof.
  apply (UpdateThreshold_is_read_back (noFaults 1)
           {| ReqLowStockThreshold := 35 |} 1%N (fresh (oneProduct 100))
           (snd (inventoryService.UpdateThreshold (noFaults 1)
                   {| ReqLowStockThreshold := 35 |} 1%N (fresh (oneProduct 100))))
           (snapshotRow 1 1 100 20)).
  - reflexivity.
  - reflexivity.
Defined.

(** X9.  [UpdateThreshold] of an inventory id that no row has does not fail:
    the lookup leaves the zero inventory, the update is addressed to product
    0, and with no row of product 0 the call reports success and the tables
    are as they were. *)
Theorem UpdateThreshold_of_unknown_id_succeeds
    (env : Env) (inventory : InventoryRequest) (id : N) (w : World) :
  fails env OpInventoryGet = false ->
  fails env OpInventoryUpdateThreshold = false ->
  find (inventoryRepository.hasID id) (Inventories (view w)) = None ->
  snapshot (view w) 0%N = None ->
  exists w',
    inventoryService.UpdateThreshold env inventory id w = (Ok tt, w')
    /\ view w' = view w
    /\ committed w' = committed w.
Proof.
  intros Hget Hupd Hid Hzero. rewrite UpdateThreshold_run_service.
  unfold gorm.Find, gorm.Error. rewrite Hget, Hid, Hupd. simpl Inventory.ProductId.
  eexists. split; [reflexivity|]. split; [|reflexivity].
  simpl. rewrite (map_unmatched _ _ _ Hzero). now destruct (view w).
Qed.

Lemma UpdateThreshold_of_unknown_id_succeeds_witness :
  exists w',
    inventoryService.UpdateThreshold (noFaults 1)
      {| ReqLowStockThreshold := 35 |} 9%N (fresh (oneProduct 100)) = (Ok tt, w')
    /\ view w' = view (fresh (oneProduct 100))
    /\ committed w' = committed (fresh (oneProduct 100)).
Proof.
  apply (UpdateThreshold_of_unknown_id_succeeds (noFaults 1)
           {| ReqLowStockThreshold := 35 |} 9%N (fresh (oneProduct 100)));
    reflexivity.
Defined.

(* ================================================================== *)
(** ** The response mapper never fails *)

Lemma ProductOf_ok (e : LoadedProduct) :
  exists r, responseMapper.ProductOf e = inr r
with InventoryOf_ok (e : LoadedInventory) :
  exists r, responseMapper.InventoryOf e = inr r.
Proof.
  - destruct e as [row category inventory]. simpl.
    destruct category as [[crow products]|]; simpl.
    + destruct inventory as [i|].
      * destruct (InventoryOf_ok i) as [r ->]. eexists. reflexivity.
      * eexists. reflexivity.
    + destruct inventory as [i|].
      * destruct (InventoryOf_ok i) as [r ->]. eexists. reflexivity.
      * eexists. reflexivity.
  - destruct e as [row product]. simpl.
    destruct product as [p|].
    + destruct (ProductOf_ok p) as [r ->]. eexists. reflexivity.
    + eexists. reflexivity.
Qed.

Lemma InventoryOf_fields (e : LoadedInventory) (r : responseModel.Inventory) :
  responseMapper.InventoryOf e = inr r ->
  responseModel.Inventory_ProductId r = Inventory.ProductId (inventoryRow e)
  /\ responseModel.Inventory_Quantity r = Inventory.Quantity (inventoryRow e)
  /\ responseModel.Inventory_LowStockThreshold r
     = Inventory.LowStockThreshold (inventoryRow e)
  /\ responseModel.Inventory_IsLowStock r
     = (Inventory.Quantity (inventoryRow e)
        <=? Inventory.LowStockThreshold (inventoryRow e))%Z.
Proof.
  destruct e as [row product]. simpl.
  destruct product as [p|].
  - destruct (responseMapper.ProductOf p); [discriminate|].
    intros H. injection H as <-. repeat split.
  - intros H. injection H as <-. repeat split.
Qed.

Lemma InventoryLogOf_ok (l : LoadedInventoryLog) :
  exists r,
    responseMapper.InventoryLogOf l = inr r
    /\ responseModel.LogID r = ID (InventoryLog.model (logRow l))
    /\ responseModel.LogProductId r = InventoryLog.ProductId (logRow l)
    /\ responseModel.LogChangeType r = InventoryLog.ChangeType (logRow l)
    /\ responseModel.LogQuantity r = InventoryLog.Quantity (logRow l)
    /\ responseModel.LogReason r = InventoryLog.Reason (logRow l)
    /\ responseModel.LogLoggedAt r = InventoryLog.LoggedAt (logRow l)
    /\ responseModel.NetChange r = InventoryLog.CalculateNetChange (logRow l).
Proof.
  unfold responseMapper.InventoryLogOf, responseMapper.Product.
  destruct (logProduct l) as [p|].
  - destruct (ProductOf_ok p) as [r ->]. eexists. repeat split.
  - eexists. repeat split.
Qed.

Lemma InventoryLogs_ok (items : list LoadedInventoryLog) :
  exists rs,
    responseMapper.InventoryLogs items = inr rs
    /\ Forall2 reports rs (map logRow items).
Proof.
  induction items as [|item items IH]; simpl.
  - exists []. split; [reflexivity | constructor].
  - destruct (InventoryLogOf_ok item) as (r & -> & Hr).
    destruct IH as (rs & -> & Hrs).
    exists (r :: rs). split; [reflexivity|]. constructor; assumption.
Qed.


(* ================================================================== *)
(** ** Reading the snapshot through the service *)

Lemma WithDB_query_run w :
  WithDB_query w = (Ok (view w), snd (transactionManager.WithTransaction w)).
Proof. destruct w as [c [working|] sent]; reflexivity. Qed.

Lemma view_begun w : view (snd (transactionManager.WithTransaction w)) = view w.
Proof. destruct w as [c [working|] sent]; reflexivity. Qed.

Lemma committed_begun w :
  committed (snd (transactionManager.WithTransaction w)) = committed w.
Proof. destruct w as [c [working|] sent]; reflexivity. Qed.

(** The exits of [inventoryService.GetByProductId]. *)
Lemma GetByProductId_service_run env catalog productId w :
  inventoryService_GetByProductId env catalog productId w
  = if fails env OpInventoryGetByProductId
    then (Err (NewXError DATABASE "Unable to find inventory for product"
                 (CauseGorm ErrStorage)), touch OpInventoryGetByProductId w)
    else match snapshot (view w) productId with
         | None =>
             (Err (NewXError DATABASE "Unable to find inventory for product"
                     (CauseGorm ErrRecordNotFound)),
              touch OpInventoryGetByProductId w)
         | Some row =>
             (match responseMapper.InventoryOf
                      (preload.Inventory catalog false row) with
              | inl _ =>
                  Err (NewXError MAPPING_ERROR "Failed to map Inventory data"
                         CauseNil)
              | inr r => Ok (Some r)
              end, touch OpInventoryGetByProductId w)
         end.
Proof.
  unfold inventoryService_GetByProductId,
    inventoryRepository_GetByProductId_loaded, bind.
  rewrite GetByProductId_run, First_snapshot.
  destruct (fails env OpInventoryGetByProductId); [reflexivity|].
  destruct (snapshot (view w) productId) as [row|]; [|reflexivity].
  unfold ret, responseMapper.Inventory.
  destruct (responseMapper.InventoryOf _); reflexivity.
Qed.

(** X11.  What a successful movement wrote is what the service reads next:
    [GetByProductId] of the product answers with the [newStock] of the
    movement as quantity, the threshold the snapshot had, and the low-stock
    flag of the two. *)
Theorem GetByProductId_reads_the_movement
    (env env' : Env) (catalog : Catalog) (request : StockMovementRequest)
    (w w1 w2 : World) (response : StockMovementResponse) :
  inventoryService.RecordStockMovement env request w = (Ok response, w1) ->
  view w2 = view w1 ->
  fails env' OpInventoryGetByProductId = false ->
  exists before r w3,
    snapshot (view w) (ProductId request) = Some before
    /\ inventoryService_GetByProductId env' catalog (ProductId request) w2
       = (Ok (Some r), w3)
    /\ responseModel.Inventory_Quantity r = NewStock response
    /\ responseModel.Inventory_LowStockThreshold r
       = Inventory.LowStockThreshold before
    /\ responseModel.Inventory_IsLowStock r
       = (NewStock response <=? Inventory.LowStockThreshold before)%Z
    /\ view w3 = view w2.
Proof.
  intros H Hv Hf. pose proof H as H'. apply RecordStockMovement_Ok_inv in H'.
  destruct H' as (before & _ & _ & _ & _ & Hs & _).
  pose proof (snapshot_after_movement _ _ _ _ _ _ H Hs) as Hafter.
  rewrite GetByProductId_service_run, Hf, Hv, Hafter.
  destruct (InventoryOf_ok
              (preload.Inventory catalog false
                 (inventoryRepository.setQuantity (NewStock response) (Now env)
                    before))) as [r Hr].
  rewrite Hr. exists before, r. eexists. split; [exact Hs|].
  split; [reflexivity|].
  destruct (InventoryOf_fields _ _ Hr) as (_ & Hq & Ht & Hl).
  simpl in Hq, Ht, Hl. repeat split; assumption.
Qed.

Lemma GetByProductId_reads_the_movement_witness :
  exists before r w3,
    snapshot (view (fresh (oneProduct 5))) 1%N = Some before
    /\ inventoryService_GetByProductId (noFaults 4) oneProductCatalog 1%N
         (fresh (view (snd (inventoryService.RecordStockMovement (noFaults 3)
                              (movement "IN" 30 "restock" false)
                              (fresh (oneProduct 5))))))
       = (Ok (Some r), w3)
    /\ responseModel.Inventory_Quantity r = 35
    /\ responseModel.Inventory_LowStockThreshold r
       = Inventory.LowStockThreshold before
    /\ responseModel.Inventory_IsLowStock r
       = (35 <=? Inventory.LowStockThreshold before)%Z
    /\ view w3
       = view (fresh (view (snd (inventoryService.RecordStockMovement (noFaults 3)
                                   (movement "IN" 30 "restock" false)
                                   (fresh (oneProduct 5)))))).
Proof.
  apply (GetByProductId_reads_the_movement (noFaults 3) (noFaults 4)
           oneProductCatalog (movement "IN" 30 "restock" false)
           (fresh (oneProduct 5))
           (snd (inventoryService.RecordStockMovement (noFaults 3)
                   (movement "IN" 30 "restock" false) (fresh (oneProduct 5))))
           (fresh (view (snd (inventoryService.RecordStockMovement (noFaults 3)
                                (movement "IN" 30 "restock" false)
                                (fresh (oneProduct 5))))))
           {| Success := true;
              ResponseMessage := "Stock IN recorded successfully";
              ResponseProductId := 1%N;
              PreviousStock := 5; NewStock := 35; ChangeAmount := 30 |});
    reflexivity.
Defined.

(** X12.  [GetByProductId] of the service fails only with a DATABASE error,
    "Unable to find inventory for product": for a product without a snapshot
    (where a movement answers INVALID_REQUEST) and when the database refuses
    the query; never with a MAPPING_ERROR.  Failing or not, it writes
    nothing. *)
Theorem GetByProductId_fails_only_in_the_database
    (env : Env) (catalog : Catalog) (productId : N) (w : World) :
  (snapshot (view w) productId = None ->
   exists cause w',
     inventoryService_GetByProductId env catalog productId w
     = (Err (NewXError DATABASE "Unable to find inventory for product" cause), w'))
  /\ (forall e w',
         inventoryService_GetByProductId env catalog productId w = (Err e, w') ->
         Kind e = DATABASE
         /\ Message e = "Unable to find inventory for product")
  /\ view (snd (inventoryService_GetByProductId env catalog productId w)) = view w
  /\ committed (snd (inventoryService_GetByProductId env catalog productId w))
     = committed w.
Proof.
  rewrite GetByProductId_service_run.
  destruct (fails env OpInventoryGetByProductId).
  - split; [intros _; eexists; eexists; reflexivity|].
    split; [intros e w' H; injection H as <- <-; split; reflexivity|].
    split; reflexivity.
  - destruct (snapshot (view w) productId) as [row|].
    + split; [discriminate|].
      destruct (InventoryOf_ok (preload.Inventory catalog false row)) as [r ->].
      split; [discriminate|]. split; reflexivity.
    + split; [intros _; eexists; eexists; reflexivity|].
      split; [intros e w' H; injection H as <- <-; split; reflexivity|].
      split; reflexivity.
Qed.

Lemma GetByProductId_fails_only_in_the_database_witness :
  exists cause w',
    inventoryService_GetByProductId (noFaults 4) oneProductCatalog 7%N
      (fresh (oneProduct 5))
    = (Err (NewXError DATABASE "Unable to find inventory for product" cause), w').
Proof.
  apply (GetByProductId_fails_only_in_the_database (noFaults 4)
           oneProductCatalog 7%N (fresh (oneProduct 5))).
  reflexivity.
Defined.

(** X13.  The product inside an inventory response never shows the stock:
    [GetByProductId] loads the product without its inventory, and the mapper
    then gives the product a current stock of 0 and no low-stock flag,
    whatever the quantity and the flag of the inventory around it. *)
Theorem product_inside_inventory_shows_no_stock
    (env : Env) (catalog : Catalog) (productId : N) (w w' : World)
    (r : responseModel.Inventory) (p : responseModel.Product) :
  inventoryService_GetByProductId env catalog productId w = (Ok (Some r), w') ->
  responseModel.Inventory_Product r = Some p ->
  responseModel.Product_CurrentStock p = 0
  /\ responseModel.Product_IsLowStock p = false
  /\ responseModel.Product_Inventory p = None.
Proof.
  rewrite GetByProductId_service_run.
  destruct (fails env OpInventoryGetByProductId); [discriminate|].
  destruct (snapshot (view w) productId) as [row|]; [|discriminate].
  unfold preload.Inventory, preload.Product. simpl.
  destruct (find _ (Products catalog)) as [prow|]; simpl.
  - intros H. injection H as <- _. simpl. intros Hp. injection Hp as <-.
    repeat split.
  - intros H. injection H as <- _. simpl. discriminate.
Qed.

Lemma product_inside_inventory_shows_no_stock_witness :
  exists r p,
    fst (inventoryService_GetByProductId (noFaults 4) oneProductCatalog 1%N
           (fresh (oneProduct 5))) = Ok (Some r)
    /\ responseModel.Inventory_Quantity r = 5
    /\ responseModel.Inventory_IsLowStock r = true
    /\ responseModel.Inventory_Product r = Some p
    /\ responseModel.Product_CurrentStock p = 0
    /\ responseModel.Product_IsLowStock p = false
    /\ responseModel.Product_Inventory p = None.
Proof.
  eexists. eexists. split; [reflexivity|]. split; [reflexivity|].
  split; [reflexivity|]. split; [reflexivity|].
  eapply (product_inside_inventory_shows_no_stock (noFaults 4) oneProductCatalog
            1%N (fresh (oneProduct 5)));
    reflexivity.
Defined.

(* ================================================================== *)
(** ** The low-stock listing *)

Lemma GetLowStockItems_run scope catalog w :
  inventoryRepository_GetLowStockItems scope catalog false w
  = (Ok (map (preload.Inventory catalog true)
           (filter (fun r => scope (Inventory.model r) && Inventory.IsLowStock r)
              (Inventories (view w)))),
     snd (transactionManager.WithTransaction w)).
Proof.
  unfold inventoryRepository_GetLowStockItems, bind.
  rewrite WithDB_query_run. reflexivity.
Qed.

Lemma GetLowStockItems_service_run scope catalog w :
  inventoryService_GetLowStockItems scope catalog false w
  = (Ok (lowStockItems scope catalog (Inventories (view w))),
     snd (transactionManager.WithTransaction w)).
Proof.
  unfold inventoryService_GetLowStockItems, bind.
  rewrite GetLowStockItems_run. reflexivity.
Qed.

(** The products a listing of the rows [rows] names. *)
Lemma listed_rows scope catalog rows productId :
  listed (lowStockItems scope catalog rows) productId <->
  exists row,
    In row rows
    /\ Inventory.ProductId row = productId
    /\ scope (Inventory.model row) = true
    /\ Inventory.IsLowStock row = true.
Proof.
  unfold listed, lowStockItems. rewrite map_map. split.
  - intros (item & Hin & Hp).
    apply in_map_iff in Hin. destruct Hin as (row & <- & Hin).
    apply filter_In in Hin. destruct Hin as [Hin Hc].
    apply andb_true_iff in Hc. exists row. simpl in Hp. tauto.
  - intros (row & Hin & Hp & Hs & Hl). eexists. split.
    + apply in_map_iff. exists row. split; [reflexivity|].
      apply filter_In. split; [exact Hin|]. now rewrite Hs, Hl.
    + exact Hp.
Qed.

(** X14.  The low-stock listing names exactly the products with a row in
    scope whose quantity is at most its threshold ([IsLowStock]); every item
    shows a current stock at most its threshold; an item whose product is not
    in the catalog has empty names; listing changes no table.  A refused query
    is a DATABASE error. *)
Theorem low_stock_listing
    (scope : Model -> bool) (catalog : Catalog) (w : World) :
  (exists items w',
      inventoryService_GetLowStockItems scope catalog false w = (Ok items, w')
      /\ view w' = view w
      /\ committed w' = committed w
      /\ Forall (fun item =>
                   responseModel.CurrentStock item
                   <= responseModel.ItemLowStockThreshold item) items
      /\ (forall productId,
             listed items productId <->
             exists row,
               In row (Inventories (view w))
               /\ Inventory.ProductId row = productId
               /\ scope (Inventory.model row) = true
               /\ Inventory.IsLowStock row = true)
      /\ (forall item,
             In item items ->
             preload.Product catalog true (responseModel.ItemProductId item) = None ->
             responseModel.ItemProductName item = ""
             /\ responseModel.ItemProductSKU item = ""
             /\ responseModel.ItemCategoryName item = ""))
  /\ (exists e w',
         inventoryService_GetLowStockItems scope catalog true w = (Err e, w')
         /\ Kind e = DATABASE).
Proof.
  split.
  - eexists. eexists. split; [apply GetLowStockItems_service_run|].
    split; [apply view_begun|]. split; [apply committed_begun|].
    split; [|split].
    + unfold lowStockItems. rewrite map_map. apply Forall_forall. intros item Hin.
      apply in_map_iff in Hin. destruct Hin as (row & <- & Hin).
      apply filter_In in Hin. destruct Hin as [_ Hc].
      apply andb_true_iff in Hc. destruct Hc as [_ Hl]. simpl.
      now apply Z.leb_le.
    + intros productId. apply listed_rows.
    + unfold lowStockItems. rewrite map_map. intros item Hin.
      apply in_map_iff in Hin. destruct Hin as (row & <- & _).
      unfold LowStockItemOf, preload.Inventory. simpl.
      intros ->. repeat split.
  - unfold inventoryService_GetLowStockItems, inventoryRepository_GetLowStockItems,
      bind. rewrite WithDB_query_run. eexists. eexists. split; reflexivity.
Qed.

(** X15.  A successful movement decides whether the product is listed as low
    on stock afterwards: it is not, when the new stock is above the threshold
    of every row of the product; it is, when the new stock is at most the
    threshold of the product's snapshot and the snapshot is in scope. *)
Theorem movement_updates_low_stock_listing
    (scope : Model -> bool) (catalog : Catalog) (env : Env)
    (request : StockMovementRequest) (w w1 w2 w3 : World)
    (response : StockMovementResponse)
    (items : list responseModel.LowStockItem) :
  inventoryService.RecordStockMovement env request w = (Ok response, w1) ->
  view w2 = view w1 ->
  inventoryService_GetLowStockItems scope catalog false w2 = (Ok items, w3) ->
  ((forall row,
       In row (Inventories (view w)) ->
       Inventory.ProductId row = ProductId request ->
       Inventory.LowStockThreshold row < NewStock response) ->
   ~ listed items (ProductId request))
  /\ (forall before,
         snapshot (view w) (ProductId request) = Some before ->
         NewStock response <= Inventory.LowStockThreshold before ->
         scope (Model_withUpdatedAt (Now env) (Inventory.model before)) = true ->
         listed items (ProductId request)).
Proof.
  intros H Hv Hl. pose proof H as H'. apply RecordStockMovement_Ok_inv in H'.
  destruct H' as (inventory & newStock & netChange & _ & _ & Hs & _ & -> & Hview & _).
  simpl NewStock.
  rewrite GetLowStockItems_service_run in Hl. injection Hl as <- _.
  rewrite Hv, Hview. simpl Inventories. split.
  - intros Habove Hin. apply listed_rows in Hin.
    destruct Hin as (row' & Hin & Hp & _ & Hlow).
    unfold movedRows in Hin. apply in_map_iff in Hin.
    destruct Hin as (row & <- & Hin).
    unfold inventoryRepository.hasProduct in *.
    destruct (N.eqb_spec (Inventory.ProductId row) (ProductId request)) as [E|E].
    + specialize (Habove row Hin E). unfold Inventory.IsLowStock in Hlow.
      simpl in Hlow. apply Z.leb_le in Hlow. lia.
    + contradiction.
  - intros before Hb Hle Hsc. apply listed_rows.
    exists (inventoryRepository.setQuantity newStock (Now env) before).
    unfold snapshot in Hb. apply find_some in Hb. destruct Hb as [Hin Hp].
    split; [|split; [|split]].
    + unfold movedRows. apply in_map_iff. exists before. now rewrite Hp.
    + unfold inventoryRepository.hasProduct in Hp. now apply N.eqb_eq in Hp.
    + exact Hsc.
    + unfold Inventory.IsLowStock. simpl. now apply Z.leb_le.
Qed.

(** Scenario D: a stock of 5 under a threshold of 20 is listed, and after
    a restock of 30 it is not. *)
Lemma movement_updates_low_stock_listing_witness :
  listed
    (match fst (inventoryService_GetLowStockItems activeRows oneProductCatalog
                  false (fresh (oneProduct 5))) with
     | Ok items => items
     | Err _ => []
     end) 1%N
  /\ ~ listed
       (match fst (inventoryService_GetLowStockItems activeRows oneProductCatalog
                     false
                     (fresh (view (snd (inventoryService.RecordStockMovement
                                          (noFaults 3)
                                          (movement "IN" 30 "restock" false)
                                          (fresh (oneProduct 5))))))) with
        | Ok items => items
        | Err _ => []
        end) (ProductId (movement "IN" 30 "restock" false)).
Proof.
  split.
  - eexists. split; [left; reflexivity | reflexivity].
  - apply (movement_updates_low_stock_listing activeRows oneProductCatalog
             (noFaults 3) (movement "IN" 30 "restock" false)
             (fresh (oneProduct 5))
             (snd (inventoryService.RecordStockMovement (noFaults 3)
                     (movement "IN" 30 "restock" false) (fresh (oneProduct 5))))
             (fresh (view (snd (inventoryService.RecordStockMovement (noFaults 3)
                                  (movement "IN" 30 "restock" false)
                                  (fresh (oneProduct 5))))))
             (snd (inventoryService_GetLowStockItems activeRows oneProductCatalog
                     false
                     (fresh (view (snd (inventoryService.RecordStockMovement
                                          (noFaults 3)
                                          (movement "IN" 30 "restock" false)
                                          (fresh (oneProduct 5))))))))
             {| Success := true;
                ResponseMessage := "Stock IN recorded successfully";
                ResponseProductId := 1%N;
                PreviousStock := 5; NewStock := 35; ChangeAmount := 30 |}).
    + reflexivity.
    + reflexivity.
    + reflexivity.
    + intros row [<-|[]] _. simpl. lia.
Defined.

(* ================================================================== *)
(** ** The history of a product *)

Lemma insertDesc_Permutation {A} (key : A -> Z) (x : A) (rows : list A) :
  Permutation (insertDesc key x rows) (x :: rows).
Proof.
  induction rows as [|y rows IH]; simpl; [reflexivity|].
  destruct (key y <=? key x)%Z; [reflexivity|].
  rewrite IH. apply perm_swap.
Qed.

Lemma OrderDesc_Permutation {A} (key : A -> Z) (rows : list A) :
  Permutation (OrderDesc key rows) rows.
Proof.
  induction rows as [|x rows IH]; simpl; [reflexivity|].
  rewrite insertDesc_Permutation. now constructor.
Qed.

Lemma insertDesc_sorted {A} (key : A -> Z) (x : A) (rows : list A) :
  StronglySorted (fun a b => key b <= key a) rows ->
  StronglySorted (fun a b => key b <= key a) (insertDesc key x rows).
Proof.
  induction rows as [|y rows IH]; simpl; intros Hs.
  - constructor; constructor.
  - inversion Hs as [|? ? Hrest Hall]; subst.
    destruct (key y <=? key x)%Z eqn:E.
    + apply Z.leb_le in E. constructor; [exact Hs|].
      constructor; [exact E|].
      eapply Forall_impl; [|exact Hall]. simpl. intros; lia.
    + apply Z.leb_gt in E. constructor; [now apply IH|].
      eapply Permutation_Forall;
        [symmetry; apply insertDesc_Permutation|].
      constructor; [lia | exact Hall].
Qed.

Lemma OrderDesc_sorted {A} (key : A -> Z) (rows : list A) :
  StronglySorted (fun a b => key b <= key a) (OrderDesc key rows).
Proof.
  induction rows as [|x rows IH]; simpl; [constructor|].
  now apply insertDesc_sorted.
Qed.

Lemma log_listing_run (cond : InventoryLog.t -> bool) scope catalog rows :
  exists logs,
    responseMapper.InventoryLogs
      (map (preload.InventoryLog catalog)
         (OrderDesc InventoryLog.LoggedAt
            (filter (fun l => scope (InventoryLog.model l) && cond l) rows)))
    = inr logs
    /\ Forall2 reports logs
         (OrderDesc InventoryLog.LoggedAt
            (filter (fun l => scope (InventoryLog.model l) && cond l) rows)).
Proof.
  destruct (InventoryLogs_ok
              (map (preload.InventoryLog catalog)
                 (OrderDesc InventoryLog.LoggedAt
                    (filter (fun l => scope (InventoryLog.model l) && cond l)
                       rows)))) as (logs & Hl & Hr).
  exists logs. split; [exact Hl|].
  rewrite map_map in Hr. simpl in Hr. now rewrite map_id in Hr.
Qed.

(** The history the service gives for a product: the rows it reports. *)
Lemma history_run scope catalog productId w :
  exists logs,
    inventoryLogService_GetByProductId scope catalog false productId w
    = (Ok logs, snd (transactionManager.WithTransaction w))
    /\ Forall2 reports logs
         (OrderDesc InventoryLog.LoggedAt
            (filter (fun l => scope (InventoryLog.model l)
                              && (InventoryLog.ProductId l =? productId)%N)
               (InventoryLogs (view w)))).
Proof.
  destruct (log_listing_run
              (fun l => (InventoryLog.ProductId l =? productId)%N)
              scope catalog (InventoryLogs (view w))) as (logs & Hl & Hr).
  exists logs. split; [|exact Hr].
  unfold inventoryLogService_GetByProductId,
    inventoryLogRepository_GetByProductId, bind.
  rewrite WithDB_query_run. unfold ret. now rewrite Hl.
Qed.

(** X16.  The inventory logs the service lists for a product, and those it
    lists for a change type, report exactly the ledger rows in scope of that
    product, or of that change type, each once, the most recently logged
    first; listing changes no table and never fails in the mapper. *)
Theorem log_listings_are_sorted_selections
    (scope : Model -> bool) (catalog : Catalog) (w : World) :
  (forall productId,
      exists logs rows w',
        inventoryLogService_GetByProductId scope catalog false productId w
        = (Ok logs, w')
        /\ Forall2 reports logs rows
        /\ Permutation rows
             (filter (fun l => scope (InventoryLog.model l)
                               && (InventoryLog.ProductId l =? productId)%N)
                (InventoryLogs (view w)))
        /\ StronglySorted newestFirst rows
        /\ view w' = view w
        /\ committed w' = committed w)
  /\ (forall changeType,
         exists logs rows w',
           inventoryLogService_GetByChangeType scope catalog false changeType w
           = (Ok logs, w')
           /\ Forall2 reports logs rows
           /\ Permutation rows
                (filter (fun l => scope (InventoryLog.model l)
                                  && String.eqb (InventoryLog.ChangeType l)
                                       changeType)
                   (InventoryLogs (view w)))
           /\ StronglySorted newestFirst rows
           /\ view w' = view w
           /\ committed w' = committed w).
Proof.
  split.
  - intros productId.
    destruct (history_run scope catalog productId w) as (logs & Hl & Hr).
    exists logs. eexists. eexists. split; [exact Hl|]. split; [exact Hr|].
    split; [apply OrderDesc_Permutation|].
    split; [apply (OrderDesc_sorted InventoryLog.LoggedAt)|].
    split; [apply view_begun | apply committed_begun].
  - intros changeType.
    destruct (log_listing_run
                (fun l => String.eqb (InventoryLog.ChangeType l) changeType)
                scope catalog (InventoryLogs (view w))) as (logs & Hl & Hr).
    exists logs. eexists. eexists. split.
    + unfold inventoryLogService_GetByChangeType,
        inventoryLogRepository_GetByChangeType, bind.
      rewrite WithDB_query_run. unfold ret. now rewrite Hl.
    + split; [exact Hr|]. split; [apply OrderDesc_Permutation|].
      split; [apply (OrderDesc_sorted InventoryLog.LoggedAt)|].
      split; [apply view_begun | apply committed_begun].
Qed.

Lemma Forall2_reports_In logs rows l :
  Forall2 reports logs rows ->
  In l rows ->
  exists r, In r logs /\ reports r l.
Proof.
  induction 1 as [|r l' logs rows Hr _ IH]; intros Hin; [contradiction|].
  destruct Hin as [->|Hin].
  - exists r. split; [now left | exact Hr].
  - destruct (IH Hin) as (r' & Hin' & Hr'). exists r'. split; [now right | exact Hr'].
Qed.

(** X17.  A successful movement is in the history of its product: when the
    ledger row it appended is in scope, the inventory logs listed for the
    product afterwards include an entry with the change type, quantity and
    reason of the request, the time of the movement, and the
    [changeAmount] of the response as net change. *)
Theorem movement_is_in_the_history
    (scope : Model -> bool) (catalog : Catalog) (env : Env)
    (request : StockMovementRequest) (w w1 w2 : World)
    (response : StockMovementResponse) :
  inventoryService.RecordStockMovement env request w = (Ok response, w1) ->
  view w2 = view w1 ->
  scope (InventoryLog.model (appendedEntry env request (InventoryLogs (view w))))
  = true ->
  exists logs w3 entry,
    inventoryLogService_GetByProductId scope catalog false (ProductId request) w2
    = (Ok logs, w3)
    /\ In entry logs
    /\ responseModel.LogProductId entry = ProductId request
    /\ responseModel.LogChangeType entry = ChangeType request
    /\ responseModel.LogQuantity entry = Quantity request
    /\ responseModel.LogReason entry = Reason request
    /\ responseModel.LogLoggedAt entry = GetLocalTime env
    /\ responseModel.NetChange entry = ChangeAmount response.
Proof.
  intros H Hv Hsc. apply RecordStockMovement_Ok_inv in H.
  destruct H as (inventory & newStock & netChange & Hq & Hvalid & _ & Hc & -> & Hview & _).
  destruct (history_run scope catalog (ProductId request) w2) as (logs & Hl & Hr).
  rewrite Hv, Hview in Hr. simpl InventoryLogs in Hr.
  destruct (Forall2_reports_In _ _
              (appendedEntry env request (InventoryLogs (view w))) Hr)
    as (entry & Hin & Hrep).
  { eapply Permutation_in; [symmetry; apply OrderDesc_Permutation|].
    apply filter_In. split.
    - apply in_or_app. right. now left.
    - rewrite Hsc. simpl. apply N.eqb_refl. }
  exists logs. eexists. exists entry. split; [exact Hl|]. split; [exact Hin|].
  destruct Hrep as (_ & Hp & Hct & Hqu & Hre & Hlo & Hn).
  rewrite (CalculateNetChange_appendedEntry _ _ _ _ _ _ Hq Hvalid Hc) in Hn.
  simpl in *. repeat split; assumption.
Qed.

Lemma movement_is_in_the_history_witness :
  exists logs w3 entry,
    inventoryLogService_GetByProductId activeRows oneProductCatalog false
      (ProductId (movement "OUT" 20 "sale" false)) afterSale
    = (Ok logs, w3)
    /\ In entry logs
    /\ responseModel.LogProductId entry = ProductId (movement "OUT" 20 "sale" false)
    /\ responseModel.LogChangeType entry = ChangeType (movement "OUT" 20 "sale" false)
    /\ responseModel.LogQuantity entry = Quantity (movement "OUT" 20 "sale" false)
    /\ responseModel.LogReason entry = Reason (movement "OUT" 20 "sale" false)
    /\ responseModel.LogLoggedAt entry = GetLocalTime (noFaults 2)
    /\ responseModel.NetChange entry
       = ChangeAmount
           {| Success := true;
              ResponseMessage := "Stock OUT recorded successfully";
              ResponseProductId := 1%N;
              PreviousStock := 50; NewStock := 30; ChangeAmount := -20 |}.
Proof.
  apply (movement_is_in_the_history activeRows oneProductCatalog (noFaults 2)
           (movement "OUT" 20 "sale" false) (fresh (view afterPurchase))
           afterSale afterSale); reflexivity.
Defined.

Lemma SumReported_reports logs rows :
  Forall2 reports logs rows -> SumReported logs = SumNetChanges rows.
Proof.
  intros H. unfold SumReported, SumNetChanges. generalize 0.
  induction H as [|r l logs rows Hr _ IH]; intros start; simpl; [reflexivity|].
  destruct Hr as (_ & _ & _ & _ & _ & _ & ->). apply IH.
Qed.

Lemma NetChangeTotal_Permutation rows rows' :
  Permutation rows rows' -> NetChangeTotal rows = NetChangeTotal rows'.
Proof. induction 1; simpl; lia. Qed.

Lemma reachable_sum d0 d productId created :
  snapshot d0 productId = Some created ->
  Inventory.Quantity created = 0 ->
  ledger d0 productId = [] ->
  Reachable d0 d ->
  exists inventory,
    snapshot d productId = Some inventory
    /\ Inventory.Quantity inventory = SumNetChanges (ledger d productId).
Proof.
  intros Hs H0 Hl Hreach.
  induction Hreach as [|w w' env request response _ IH Hmove].
  - exists created. split; [exact Hs|]. rewrite Hl. exact H0.
  - exact (movement_preserves_sum _ _ _ _ _ _ Hmove IH).
Qed.

(** X18.  The history adds up to the stock: for a product created with
    quantity 0 and moved only by successful movements, whose ledger rows are
    all in scope, the net changes of the inventory logs the service lists for
    the product sum, on [int], to the quantity of its snapshot. *)
Theorem history_adds_up_to_the_stock
    (scope : Model -> bool) (catalog : Catalog) (d0 : DB) (productId : N)
    (created : Inventory.t) (w : World) :
  snapshot d0 productId = Some created ->
  Inventory.Quantity created = 0 ->
  ledger d0 productId = [] ->
  Reachable d0 (view w) ->
  (forall l, In l (ledger (view w) productId) ->
             scope (InventoryLog.model l) = true) ->
  exists logs w' inventory,
    inventoryLogService_GetByProductId scope catalog false productId w
    = (Ok logs, w')
    /\ snapshot (view w) productId = Some inventory
    /\ SumReported logs = Inventory.Quantity inventory.
Proof.
  intros Hs H0 Hl Hreach Hscope.
  destruct (reachable_sum _ _ _ _ Hs H0 Hl Hreach) as (inventory & Hsnap & Hq).
  destruct (history_run scope catalog productId w) as (logs & Hrun & Hr).
  exists logs. eexists. exists inventory. split; [exact Hrun|].
  split; [exact Hsnap|].
  rewrite (SumReported_reports _ _ Hr), Hq, !SumNetChanges_wrap. f_equal.
  rewrite (NetChangeTotal_Permutation _ _ (OrderDesc_Permutation _ _)).
  f_equal. unfold ledger in *. apply filter_ext_in. intros l Hin.
  destruct (InventoryLog.ProductId l =? productId)%N eqn:E.
  - rewrite Hscope; [reflexivity|]. apply filter_In. now split.
  - apply andb_false_r.
Qed.

Lemma history_adds_up_to_the_stock_witness :
  exists logs w' inventory,
    inventoryLogService_GetByProductId activeRows oneProductCatalog false 1%N
      afterSale = (Ok logs, w')
    /\ snapshot (view afterSale) 1%N = Some inventory
    /\ SumReported logs = Inventory.Quantity inventory.
Proof.
  apply (history_adds_up_to_the_stock activeRows oneProductCatalog (oneProduct 0)
           1%N (snapshotRow 1 1 0 20) afterSale).
  - reflexivity.
  - reflexivity.
  - reflexivity.
  - apply (Reachable_move (oneProduct 0) (fresh (view afterPurchase)) afterSale
             (noFaults 2) (movement "OUT" 20 "sale" false)
             {| Success := true;
                ResponseMessage := "Stock OUT recorded successfully";
                ResponseProductId := 1%N;
                PreviousStock := 50; NewStock := 30; ChangeAmount := -20 |}).
    + apply (Reachable_move (oneProduct 0) (fresh (oneProduct 0)) afterPurchase
               (noFaults 1) (movement "IN" 50 "purchase" false)
               {| Success := true;
                  ResponseMessage := "Stock IN recorded successfully";
                  ResponseProductId := 1%N;
                  PreviousStock := 0; NewStock := 50; ChangeAmount := 50 |}).
      * apply Reachable_start.
      * reflexivity.
    + reflexivity.
  - intros l [<-|[<-|[]]]; reflexivity.
Defined.

Example history_of_purchase_then_sale :
  option_map (map responseModel.NetChange)
    (match fst (inventoryLogService_GetByProductId activeRows oneProductCatalog
                  false 1%N afterSale) with
     | Ok logs => Some logs
     | Err _ => None
     end) = Some [-20; 50].
Proof. reflexivity. Qed.

(** X19.  Movements only append to the ledger: after any sequence of
    successful movements the ledger is the ledger it was followed by the rows
    added, none changed or removed, and each added row has a positive
    quantity, one of the change types IN, OUT and ADJUST, and is active. *)
Theorem ledger_is_append_only (d0 d : DB) :
  Reachable d0 d ->
  exists added,
    InventoryLogs d = InventoryLogs d0 ++ added
    /\ Forall wellFormedEntry added.
Proof.
  induction 1 as [|w w' env request response _ IH Hmove].
  - exists []. split; [now rewrite app_nil_r | constructor].
  - destruct IH as (added & Hadded & Hwf).
    apply RecordStockMovement_Ok_inv in Hmove.
    destruct Hmove as (inventory & newStock & netChange & Hq & Hv & _ & _ & _ & Hview & _).
    exists (added ++ [appendedEntry env request (InventoryLogs (view w))]).
    rewrite Hview. simpl. rewrite Hadded, <- app_assoc. split; [reflexivity|].
    apply Forall_app. split; [exact Hwf|]. constructor; [|constructor].
    repeat split; assumption.
Qed.

Lemma ledger_is_append_only_witness :
  exists added,
    InventoryLogs (view afterSale) = InventoryLogs (oneProduct 0) ++ added
    /\ Forall wellFormedEntry added.
Proof.
  apply (ledger_is_append_only (oneProduct 0) (view afterSale)).
  apply (Reachable_move (oneProduct 0) (fresh (view afterPurchase)) afterSale
           (noFaults 2) (movement "OUT" 20 "sale" false)
           {| Success := true;
              ResponseMessage := "Stock OUT recorded successfully";
              ResponseProductId := 1%N;
              PreviousStock := 50; NewStock := 30; ChangeAmount := -20 |}).
  - apply (Reachable_move (oneProduct 0) (fresh (oneProduct 0)) afterPurchase
             (noFaults 1) (movement "IN" 50 "purchase" false)
             {| Success := true;
                ResponseMessage := "Stock IN recorded successfully";
                ResponseProductId := 1%N;
                PreviousStock := 0; NewStock := 50; ChangeAmount := 50 |}).
    + apply Reachable_start.
    + reflexivity.
  - reflexivity.
Defined.

(* ================================================================== *)
(** ** The statuses of the movement handler *)

(** X20.  The handler of a stock movement answers 201 with the response of
    the service when the movement succeeds, 400 when the request does not
    bind, the service then not being called, and 500 with the error of the
    service whenever the service fails: a refusal for insufficient stock,
    although an INVALID_REQUEST, is a 500. *)
Theorem handler_statuses
    (MALFORMED_REQUEST : string) (env : Env) (request : StockMovementRequest)
    (w : World) :
  match body (fst (Handler_RecordStockMovement MALFORMED_REQUEST env request w)) with
  | DefaultSuccessResponse response =>
      status (fst (Handler_RecordStockMovement MALFORMED_REQUEST env request w))
      = StatusCreated
      /\ inventoryService.RecordStockMovement env request w
         = (Ok response,
            snd (Handler_RecordStockMovement MALFORMED_REQUEST env request w))
  | DefaultFailureResponse x =>
      (status (fst (Handler_RecordStockMovement MALFORMED_REQUEST env request w))
       = StatusBadRequest
       /\ Bind request = Some CauseBind
       /\ x = NewXError INVALID_REQUEST MALFORMED_REQUEST CauseBind
       /\ snd (Handler_RecordStockMovement MALFORMED_REQUEST env request w) = w)
      \/ (status (fst (Handler_RecordStockMovement MALFORMED_REQUEST env request w))
          = StatusInternalServerError
          /\ Bind request = None
          /\ inventoryService.RecordStockMovement env request w
             = (Err x,
                snd (Handler_RecordStockMovement MALFORMED_REQUEST env request w)))
  end.
Proof.
  unfold Handler_RecordStockMovement.
  destruct (Bind request) as [cause|] eqn:EB.
  - simpl. left. unfold Bind in EB.
    destruct (_ || _) in EB; [|discriminate]. injection EB as <-.
    repeat split.
  - destruct (inventoryService.RecordStockMovement env request w)
      as [[response|e] w'] eqn:E; simpl.
    + split; reflexivity.
    + right. repeat split.
Qed.

(** Scenario B through the handler. *)
Example insufficient_stock_is_a_500 :
  fst (Handler_RecordStockMovement "malformed request" (noFaults 0)
         (movement "OUT" 50 "sale" false) (fresh (oneProduct 10)))
  = {| body := DefaultFailureResponse
                 (NewXError INVALID_REQUEST
                    "Insufficient stock. Available: 10, Requested: 50" CauseNil);
       status := StatusInternalServerError |}.
Proof. reflexivity. Qed.
